(** * Trade Opportunities API: rate limiter, market-data fetch, analysis,
      report rendering and the analyze endpoint.

    A shallow embedding of [app/config.py], [app/rate_limit.py],
    [app/search.py], [app/analysis.py], [app/models.py], [app/auth.py] and
    [app/main.py], followed by the properties proved about them.

    Conventions of the embedding:
    - Python [str] is [string], holding the UTF-8 encoding of the text.
      Concatenation, [in], [split] and the literals of the source read the
      same on the encoding as on the text.  [str.lower] and [str.title] are
      computed here for text of ASCII characters; for text with any other
      character they follow the interpreter's Unicode tables, which are a
      collaborator ([Py.Unicode]).
    - A [datetime] is the number of microseconds since a fixed origin (the
      resolution of [datetime] and [timedelta]), an unbounded [Z];
      [timedelta(seconds=s)] is [s * 1000000], taken inside the range
      [timedelta] can represent.
    - A function that can raise returns a [result]; a function that reads
      or updates module-level state takes the state and returns the new one.
    - The search provider, the generative model, [json.loads],
      [json.dumps], token decoding, the clock readings, the interpreter's
      [str()] of non-string values and its case mappings beyond ASCII are
      collaborators from outside the repository: their outcomes are inputs
      of the functions that use them. *)

From stdpp Require Import gmap strings list pretty.
From Stdlib Require Import ZArith Lia Ascii.

Set Warnings "-register-all".

Local Open Scope string_scope.
Local Open Scope list_scope.
Local Open Scope Z_scope.

(** ** Exceptions and results *)

Inductive result (E A : Type) : Type :=
  | Return (a : A)
  | Raise (e : E).
Arguments Return {E A} a.
Arguments Raise {E A} e.

(** [fastapi.HTTPException(status_code, detail, headers)]. *)
Record HTTPException := {
  status_code : Z;
  detail : string;
  headers : list (string * string) }.

(** The exceptions the embedded code can meet.  [HTTP] is
    [fastapi.HTTPException]; [JWTError] stands for [jose.JWTError] and its
    subclasses; [External] is anything else a collaborator raises, with
    its class name. *)
Inductive exn : Type :=
  | HTTP (e : HTTPException)
  | AttributeError
  | TypeError
  | ValidationError
  | JSONDecodeError
  | JWTError
  | External (name : string).

Definition HTTP_400_BAD_REQUEST : Z := 400.
Definition HTTP_401_UNAUTHORIZED : Z := 401.
Definition HTTP_429_TOO_MANY_REQUESTS : Z := 429.
Definition HTTP_500_INTERNAL_SERVER_ERROR : Z := 500.

(** ** Python values and text *)

(** The values [json.loads] builds and the search provider returns.  A
    float is kept as its IEEE-754 binary64 bit pattern; a [dict] with
    string keys keeps its entries in insertion order. *)
Inductive pyval : Type :=
  | PNone
  | PBool (b : bool)
  | PInt (z : Z)
  | PFloat (bits : Z)
  | PStr (s : string)
  | PList (l : list pyval)
  | PDict (d : list (string * pyval)).

(** Sequencing of steps that may raise: the first exception ends the run. *)
Global Instance result_bind {E} : MBind (result E) := λ A B k m,
  match m with
  | Return a => k a
  | Raise e => Raise e
  end.

(** [try: body  except Exception as e: handler(e)]. *)
Definition try_except {E A} (body : result E A) (handler : E → result E A)
    : result E A :=
  match body with
  | Return a => Return a
  | Raise e => handler e
  end.

(** [for x in xs: state = step(state, x)], stopping at the first
    exception. *)
Fixpoint for_each {E A S} (step : S → A → result E S) (xs : list A) (state : S)
    : result E S :=
  match xs with
  | [] => Return state
  | x :: xs' => state' ← step state x; for_each step xs' state'
  end.

(** [for x in xs: acc.append(f(x))]. *)
Definition for_append {E A B} (f : A → result E B) (xs : list A) (acc : list B)
    : result E (list B) :=
  for_each (λ acc x, y ← f x; Return (acc ++ [y])) xs acc.

Module Py.

(** [d.get(key, default)] on a [dict]. *)
Fixpoint dict_get (d : list (string * pyval)) (key : string) (default : pyval)
    : pyval :=
  match d with
  | [] => default
  | (k, v) :: d' => if decide (k = key) then v else dict_get d' key default
  end.

(** [v.get(key, default)]: only a [dict] has the method. *)
Definition get (v : pyval) (key : string) (default : pyval) : result exn pyval :=
  match v with
  | PDict d => Return (dict_get d key default)
  | _ => Raise AttributeError
  end.

(** The characters of a text.  In the encoding a character is a lead byte
    with the continuation bytes (0x80 to 0xBF) that follow it;
    [chars_after s] is the continuation bytes [s] starts with and the
    characters after them. *)
Definition is_continuation (c : ascii) : bool :=
  (128 <=? nat_of_ascii c)%nat && (nat_of_ascii c <=? 191)%nat.

Fixpoint chars_after (s : string) : string * list pyval :=
  match s with
  | EmptyString => ("", [])
  | String c s' =>
      let '(more, rest) := chars_after s' in
      if is_continuation c then (String c more, rest)
      else ("", PStr (String c more) :: rest)
  end.

Definition chars (s : string) : list pyval :=
  let '(more, rest) := chars_after s in
  match more with
  | EmptyString => rest
  | _ => PStr more :: rest
  end.

(** Iteration, as a [for] loop does it: a list yields its items, a string
    its characters, a dict its keys; the other values are not iterable. *)
Definition iter (v : pyval) : result exn (list pyval) :=
  match v with
  | PList l => Return l
  | PStr s => Return (chars s)
  | PDict d => Return ((λ kv, PStr kv.1) <$> d)
  | _ => Raise TypeError
  end.

Definition is_upper (c : ascii) : bool :=
  (65 <=? nat_of_ascii c)%nat && (nat_of_ascii c <=? 90)%nat.
Definition is_lower (c : ascii) : bool :=
  (97 <=? nat_of_ascii c)%nat && (nat_of_ascii c <=? 122)%nat.
Definition to_lower (c : ascii) : ascii :=
  if is_upper c then ascii_of_nat (nat_of_ascii c + 32) else c.
Definition to_upper (c : ascii) : ascii :=
  if is_lower c then ascii_of_nat (nat_of_ascii c - 32) else c.

(** Every character of the text is an ASCII character. *)
Fixpoint is_ascii (s : string) : bool :=
  match s with
  | EmptyString => true
  | String c s' => (nat_of_ascii c <? 128)%nat && is_ascii s'
  end.

(** [s.lower()] for a text of ASCII characters. *)
Fixpoint lower_ascii (s : string) : string :=
  match s with
  | EmptyString => EmptyString
  | String c s' => String (to_lower c) (lower_ascii s')
  end.

(** [s.title()] for a text of ASCII characters: a letter that follows a
    letter is lower-cased, a letter that follows anything else (or starts
    the text) is upper-cased. *)
Fixpoint title_from (previous_is_cased : bool) (s : string) : string :=
  match s with
  | EmptyString => EmptyString
  | String c s' =>
      if is_upper c || is_lower c
      then String (if previous_is_cased then to_lower c else to_upper c)
                  (title_from true s')
      else String c (title_from false s')
  end.
Definition title_ascii (s : string) : string := title_from false s.

(** The interpreter's case mappings of a text that holds a character
    beyond ASCII: what [str.lower] and [str.title] give for it. *)
Record Unicode := {
  unicode_lower : string → string;
  unicode_title : string → string }.

(** [s.lower()] and [s.title()]. *)
Definition lower (U : Unicode) (s : string) : string :=
  if is_ascii s then lower_ascii s else unicode_lower U s.

Definition title (U : Unicode) (s : string) : string :=
  if is_ascii s then title_ascii s else unicode_title U s.

(** Case mappings for the sample inputs, whose text is ASCII throughout:
    they leave the characters beyond ASCII as they are. *)
Definition ascii_only : Unicode := {|
  unicode_lower := lower_ascii;
  unicode_title := title_ascii |}.

(** [sep.join(items)]. *)
Fixpoint join (sep : string) (items : list string) : string :=
  match items with
  | [] => ""
  | [x] => x
  | x :: items' => x +:+ sep +:+ join sep items'
  end.

(** [drop_prefix sep s] is what follows [sep] when [s] starts with it. *)
Fixpoint drop_prefix (sep s : string) : option string :=
  match sep, s with
  | EmptyString, _ => Some s
  | String a sep', String b s' =>
      if decide (a = b) then drop_prefix sep' s' else None
  | String _ _, EmptyString => None
  end.

(** [cut sep s]: the text before and the text after the leftmost [sep] in
    [s], as [s.partition(sep)] finds them. *)
Fixpoint cut (sep s : string) : option (string * string) :=
  match drop_prefix sep s with
  | Some rest => Some ("", rest)
  | None =>
      match s with
      | EmptyString => None
      | String c s' =>
          match cut sep s' with
          | Some (before, after) => Some (String c before, after)
          | None => None
          end
      end
  end.

(** [sub in s]: the search for the leftmost [sub] succeeds. *)
Definition contains (sub s : string) : bool :=
  match cut sub s with
  | Some _ => true
  | None => false
  end.

(** [s.split(sep)] for a non-empty [sep]: cut at the leftmost separator
    and go on in what follows it.  Each cut removes at least one
    character, so a budget of one step per character is never used up. *)
Fixpoint split_steps (steps : nat) (sep s : string) : list string :=
  match steps with
  | O => [s]
  | S steps' =>
      match cut sep s with
      | None => [s]
      | Some (before, after) => before :: split_steps steps' sep after
      end
  end.
Definition split (sep s : string) : list string :=
  split_steps (String.length s) sep s.

(** The pieces of a text, one after the other. *)
Definition concat (pieces : list string) : string :=
  foldr String.append "" pieces.

(** [occurs sub s]: [sub] is a substring of [s]. *)
Definition occurs (sub s : string) : Prop :=
  ∃ before after, s = before +:+ sub +:+ after.

(** [leftmost sub s before after]: [s] splits around an occurrence of
    [sub], and no occurrence starts earlier. *)
Definition leftmost (sub s before after : string) : Prop :=
  s = before +:+ sub +:+ after ∧
  ∀ before' after', s = before' +:+ sub +:+ after' →
                    (String.length before ≤ String.length before')%nat.

(** [items[i]]. *)
Definition index {A} (items : list A) (i : nat) : result exn A :=
  match items !! i with
  | Some x => Return x
  | None => Raise (External "IndexError")
  end.

End Py.

(** ** app/config.py *)

Module Config.

Record Settings := {
  app_name : string;
  gemini_api_key : option string;
  allowed_sectors : list string;
  rate_limit_requests : Z;
  rate_limit_period : Z;
  secret_key : string;
  algorithm : string;
  access_token_expire_minutes : Z }.

(** The field defaults of [class Settings]; the environment or [.env] may
    override any of them, so the functions below take the settings in
    force as an argument. *)
Definition settings : Settings := {|
  app_name := "Trade Opportunities API";
  gemini_api_key := None;
  allowed_sectors :=
    ["pharmaceuticals"; "technology"; "agriculture";
     "automobile"; "banking"; "renewable-energy";
     "real-estate"; "manufacturing"; "retail"];
  rate_limit_requests := 10;
  rate_limit_period := 60;
  secret_key := "your-secret-key-change-in-production";
  algorithm := "HS256";
  access_token_expire_minutes := 30 |}.

(** The settings when the environment sets [GEMINI_API_KEY] and nothing
    else. *)
Definition settings_with_key (key : string) : Settings := {|
  app_name := app_name settings;
  gemini_api_key := Some key;
  allowed_sectors := allowed_sectors settings;
  rate_limit_requests := rate_limit_requests settings;
  rate_limit_period := rate_limit_period settings;
  secret_key := secret_key settings;
  algorithm := algorithm settings;
  access_token_expire_minutes := access_token_expire_minutes settings |}.

End Config.
Import Config.

(** ** app/rate_limit.py *)

Module RateLimit.

(** [timedelta(seconds=s)], in microseconds. *)
Definition timedelta_seconds (s : Z) : Z := s * 1000000.

(** The seconds a [timedelta] can hold, from -999999999 days to one
    second short of 1000000000 days; [timedelta(seconds=s)] raises
    OverflowError for any other [s]. *)
Definition timedelta_representable (s : Z) : bool :=
  (-999999999 * 86400 <=? s) && (s <? 1000000000 * 86400).

(** [RateLimiter.requests]: a [defaultdict(list)] from key to the request
    times kept for it.  Reading a missing key yields the empty list, which
    is [!!!] on the map. *)
Abbreviation requests_map := (gmap string (list Z)).

Section limiter.
Context (cfg : Settings).

(** [RateLimiter.is_rate_limited(key)], with [now] the reading of
    [datetime.now()].  The verdict [true] means the request is refused. *)
Definition is_rate_limited (key : string) (now : Z) (requests : requests_map)
    : bool * requests_map :=
  let kept :=
    filter (λ req_time, now - req_time < timedelta_seconds (rate_limit_period cfg))
           (requests !!! key) in
  if bool_decide (rate_limit_requests cfg ≤ Z.of_nat (length kept))
  then (true, <[key := kept]> requests)
  else (false, <[key := kept ++ [now]]> requests).

(** [check_rate_limit(request, user_identifier)]. *)
Definition check_rate_limit (user_identifier : string) (now : Z)
    (requests : requests_map) : result exn unit * requests_map :=
  let '(limited, requests') := is_rate_limited user_identifier now requests in
  if limited then
    (Raise (HTTP {|
       status_code := HTTP_429_TOO_MANY_REQUESTS;
       detail := "Rate limit exceeded. Try again in "
                 +:+ pretty (rate_limit_period cfg) +:+ " seconds.";
       headers := [("Retry-After", pretty (rate_limit_period cfg))] |}),
     requests')
  else (Return (), requests').

(** A run of checks, each a key with the clock reading at its call; the
    verdicts come back in call order. *)
Fixpoint checks (calls : list (string * Z)) (requests : requests_map)
    : list bool * requests_map :=
  match calls with
  | [] => ([], requests)
  | (key, now) :: calls' =>
      let r := is_rate_limited key now requests in
      let rs := checks calls' r.2 in
      (r.1 :: rs.1, rs.2)
  end.

(** Every stored sequence holds at most the quota. *)
Definition within_quota (requests : requests_map) : Prop :=
  ∀ key l, requests !! key = Some l →
           Z.of_nat (length l) ≤ rate_limit_requests cfg.

End limiter.

End RateLimit.

(** ** app/models.py *)

Module Models.

Record User := {
  username : string;
  disabled : option bool }.

Record MarketData := {
  title : string;
  source : string;
  snippet : string;
  date : string;
  url : option string }.

Record TradeOpportunity := {
  opportunity : string;
  reasoning : string;
  risk_level : string;
  time_horizon : string }.

Record AnalysisResponse := {
  sector : string;
  timestamp : string;
  summary : string;
  market_trends : list string;
  key_news : list MarketData;
  trade_opportunities : list TradeOpportunity;
  risks : list string;
  markdown_report : string }.

(** Field validation as pydantic 2 does it for values of the [pyval]
    kinds: a [str] field takes a string and nothing else, an
    [Optional[str]] field also takes [None], a [List[str]] field takes a
    list of strings. *)
Definition validate_str (v : pyval) : result exn string :=
  match v with
  | PStr s => Return s
  | _ => Raise ValidationError
  end.

Definition validate_optional_str (v : pyval) : result exn (option string) :=
  match v with
  | PStr s => Return (Some s)
  | PNone => Return None
  | _ => Raise ValidationError
  end.

Definition validate_list_str (v : pyval) : result exn (list string) :=
  match v with
  | PList l => for_append validate_str l []
  | _ => Raise ValidationError
  end.

(** [MarketData(title=.., source=.., snippet=.., date=.., url=..)]. *)
Definition new_MarketData (title source snippet date url : pyval)
    : result exn MarketData :=
  t ← validate_str title ;
  s ← validate_str source ;
  b ← validate_str snippet ;
  d ← validate_str date ;
  u ← validate_optional_str url ;
  Return {| title := t; source := s; snippet := b; date := d; url := u |}.

(** [TradeOpportunity] built from the entries of [opp], which must be a
    mapping; the four fields are required, other keys are ignored. *)
Definition required (d : list (string * pyval)) (key : string) : result exn string :=
  match Py.dict_get d key PNone with
  | PStr s => Return s
  | _ => Raise ValidationError
  end.

Definition new_TradeOpportunity (opp : pyval) : result exn TradeOpportunity :=
  match opp with
  | PDict d =>
      o ← required d "opportunity" ;
      r ← required d "reasoning" ;
      l ← required d "risk_level" ;
      h ← required d "time_horizon" ;
      Return {| opportunity := o; reasoning := r;
                risk_level := l; time_horizon := h |}
  | _ => Raise TypeError
  end.

(** The analysis dictionaries of the documented shape: a text summary,
    lists of texts for trends and risks, and a list of opportunities with
    their four texts. *)
Definition is_str (v : pyval) : bool :=
  match v with
  | PStr _ => true
  | _ => false
  end.

Definition is_str_list (v : pyval) : bool :=
  match v with
  | PList l => forallb is_str l
  | _ => false
  end.

Definition is_opportunity (v : pyval) : bool :=
  match v with
  | PDict d =>
      is_str (Py.dict_get d "opportunity" PNone)
      && is_str (Py.dict_get d "reasoning" PNone)
      && is_str (Py.dict_get d "risk_level" PNone)
      && is_str (Py.dict_get d "time_horizon" PNone)
  | _ => false
  end.

Definition is_opportunity_list (v : pyval) : bool :=
  match v with
  | PList l => forallb is_opportunity l
  | _ => false
  end.

Definition is_analysis_result (v : pyval) : bool :=
  match v with
  | PDict d =>
      is_str (Py.dict_get d "summary" PNone)
      && is_str_list (Py.dict_get d "market_trends" PNone)
      && is_opportunity_list (Py.dict_get d "trade_opportunities" PNone)
      && is_str_list (Py.dict_get d "risks" PNone)
  | _ => false
  end.

(** [item.dict()]. *)
Definition MarketData_dict (item : MarketData) : pyval :=
  PDict [("title", PStr (title item));
         ("source", PStr (source item));
         ("snippet", PStr (snippet item));
         ("date", PStr (date item));
         ("url", match url item with Some u => PStr u | None => PNone end)].

End Models.

(** ** app/search.py *)

Module Search.
Import Models.

Section search.
(** [DDGS().text(query, max_results=..)], collected into a list: the
    provider's answer to a query, or the exception it raises. *)
Context (ddgs_text : string → Z → result exn (list pyval)).
(** The interpreter's case mappings beyond ASCII. *)
Context (U : Py.Unicode).

(** [get_fallback_data(sector)]. *)
Definition fallback_data : gmap string (list MarketData) :=
  {[ "pharmaceuticals" :=
       [ {| title := "Indian Pharma Sector Growth Outlook 2024";
            source := "Industry Report";
            snippet := "Indian pharmaceutical sector expected to grow at 8-10% CAGR driven by exports and domestic demand.";
            date := "2024";
            url := Some "" |} ];
     "technology" :=
       [ {| title := "India Tech Sector: AI and Digital Transformation";
            source := "Tech Analysis";
            snippet := "Technology sector in India seeing increased investment in AI, cloud computing, and digital services.";
            date := "2024";
            url := Some "" |} ];
     "agriculture" :=
       [ {| title := "Agricultural Sector Modernization Trends";
            source := "Agri Report";
            snippet := "Precision farming and organic exports driving growth in Indian agriculture sector.";
            date := "2024";
            url := Some "" |} ] ]}.

Definition get_fallback_data (sector : string) : list MarketData :=
  default
    [ {| title := Py.title U sector +:+ " Sector Analysis";
         source := "Market Intelligence";
         snippet := "Current trends and opportunities in the " +:+ sector
                    +:+ " sector.";
         date := "2024";
         url := Some "" |} ]
    (fallback_data !! sector).

(** The [MarketData(...)] built in the loop from one search result. *)
Definition market_record (item : pyval) : result exn MarketData :=
  t ← Py.get item "title" (PStr "");
  s ← Py.get item "source" (PStr "Unknown");
  b ← Py.get item "body" (PStr "");
  d ← Py.get item "date" (PStr "Recent");
  u ← Py.get item "href" (PStr "");
  new_MarketData t s b d u.

Definition search_query (sector : string) : string :=
  sector +:+ " sector India market news trends 2024 latest updates".

(** [search_market_data(sector, max_results)]. *)
Definition search_market_data (sector : string) (max_results : Z)
    : result exn (list MarketData) :=
  try_except
    (results ← ddgs_text (search_query sector) max_results;
     for_append market_record results [])
    (λ e, Return (get_fallback_data sector)).

End search.

End Search.

(** ** app/analysis.py *)

Module Analysis.
Import Models.

(** The line feed and the double quote of the string literals. *)
Definition nl : string := String (ascii_of_nat 10) EmptyString.
Definition dq : string := String (ascii_of_nat 34) EmptyString.
Definition quoted (s : string) : string := dq +:+ s +:+ dq.

(** The opening and closing mark of a fenced block, and the opening mark
    of one tagged as JSON. *)
Definition fence : string := "```".
Definition json_fence : string := "```json".

(** [initialize_gemini()]: whether a key is configured ([None] and the
    empty string both count as absent).  [genai.configure] only records
    the key. *)
Definition initialize_gemini (cfg : Settings) : bool :=
  match gemini_api_key cfg with
  | Some key => negb (String.eqb key "")
  | None => false
  end.

(** [generate_mock_analysis(sector, market_data)]. *)
Definition generate_mock_analysis (sector : string) (market_data : list MarketData)
    : pyval :=
  PDict [
    ("summary",
     PStr ("The " +:+ sector +:+ " sector in India shows promising growth potential with increasing digital adoption and government support."));
    ("market_trends",
     PList [
       PStr ("Growing demand in " +:+ sector +:+ " services");
       PStr "Increased foreign investment";
       PStr "Government policy support";
       PStr "Technology integration";
       PStr "Export opportunities" ]);
    ("trade_opportunities",
     PList [
       PDict [
         ("opportunity", PStr ("Invest in leading " +:+ sector +:+ " companies"));
         ("reasoning", PStr "Market leaders showing consistent growth and innovation");
         ("risk_level", PStr "medium");
         ("time_horizon", PStr "medium-term") ];
       PDict [
         ("opportunity", PStr "Sector-specific ETFs");
         ("reasoning", PStr "Diversified exposure with lower risk");
         ("risk_level", PStr "low");
         ("time_horizon", PStr "long-term") ] ]);
    ("risks",
     PList [
       PStr "Regulatory changes";
       PStr "Market volatility";
       PStr "Global economic factors";
       PStr "Competition intensity" ]) ].

(** The prompt, line by line; [market_json] is the text [json.dumps]
    gives for the records. *)
Definition prompt (sector market_json : string) : string :=
  Py.join nl [
    "";
    "        Analyze the following market data for the " +:+ sector
      +:+ " sector in India and provide:";
    "        1. A brief summary of current market conditions";
    "        2. 3-5 key market trends";
    "        3. 3-5 specific trade opportunities with reasoning, risk level (low/medium/high), and time horizon";
    "        4. 3-5 potential risks";
    "        ";
    "        Market Data:";
    "        " +:+ market_json;
    "        ";
    "        Respond in JSON format with this structure:";
    "        {";
    "            " +:+ quoted "summary" +:+ ": " +:+ quoted "string" +:+ ",";
    "            " +:+ quoted "market_trends" +:+ ": [" +:+ quoted "trend1"
      +:+ ", " +:+ quoted "trend2" +:+ ", ...],";
    "            " +:+ quoted "trade_opportunities" +:+ ": [";
    "                {";
    "                    " +:+ quoted "opportunity" +:+ ": " +:+ quoted "string" +:+ ",";
    "                    " +:+ quoted "reasoning" +:+ ": " +:+ quoted "string" +:+ ",";
    "                    " +:+ quoted "risk_level" +:+ ": "
      +:+ quoted "low/medium/high" +:+ ",";
    "                    " +:+ quoted "time_horizon" +:+ ": "
      +:+ quoted "short/medium/long-term";
    "                }";
    "            ],";
    "            " +:+ quoted "risks" +:+ ": [" +:+ quoted "risk1" +:+ ", "
      +:+ quoted "risk2" +:+ ", ...]";
    "        }";
    "        " ].

(** The text handed to [json.loads], cut out of the model's answer. *)
Definition extract_json (response_text : string) : result exn string :=
  if Py.contains json_fence response_text then
    after ← Py.index (Py.split json_fence response_text) 1;
    Py.index (Py.split fence after) 0
  else if Py.contains fence response_text then
    after ← Py.index (Py.split fence response_text) 1;
    Py.index (Py.split fence after) 0
  else Return response_text.

Section analysis.
(** [genai.GenerativeModel('gemini-pro').generate_content(prompt).text]:
    the model's answer to a prompt, or the exception raised on the way. *)
Context (generate_content : string → result exn string).
(** [json.loads] and [json.dumps(.., indent=2)]. *)
Context (json_loads : string → result exn pyval).
Context (json_dumps : pyval → string).
(** [str(v)] for a value that is not a string. *)
Context (py_str : pyval → string).
(** The interpreter's case mappings beyond ASCII. *)
Context (U : Py.Unicode).

(** [analyze_with_gemini(sector, market_data)]. *)
Definition analyze_with_gemini (cfg : Settings) (sector : string)
    (market_data : list MarketData) : result exn pyval :=
  if negb (initialize_gemini cfg) then
    Return (generate_mock_analysis sector market_data)
  else
    try_except
      (response_text ←
         generate_content
           (prompt sector (json_dumps (PList (MarketData_dict <$> market_data))));
       json_str ← extract_json response_text;
       json_loads json_str)
      (λ e, Return (generate_mock_analysis sector market_data)).

(** A value inside an f-string. *)
Definition fmt (v : pyval) : string :=
  match v with
  | PStr s => s
  | _ => py_str v
  end.

(** [v.title()] where [v] came out of a dict. *)
Definition title_of (v : pyval) : result exn string :=
  match v with
  | PStr s => Return (Py.title U s)
  | _ => Raise AttributeError
  end.

(** [enumerate(items, start)]. *)
Fixpoint enumerate {A} (items : list A) (start : Z) : list (Z * A) :=
  match items with
  | [] => []
  | x :: items' => (start, x) :: enumerate items' (start + 1)
  end.

(** The body of the loop over the trends. *)
Definition add_trend (markdown : string) (trend : pyval) : result exn string :=
  Return (markdown +:+ ("- " +:+ fmt trend +:+ nl)).

(** The body of the loop over the first records of [market_data]. *)
Definition add_news (markdown : string) (data : MarketData) : result exn string :=
  let markdown := markdown +:+ ("### " +:+ title data +:+ nl) in
  let markdown :=
    markdown +:+ ("**Source:** " +:+ source data
                  +:+ " | **Date:** " +:+ date data +:+ nl) in
  Return (markdown +:+ (snippet data +:+ nl +:+ nl)).

(** The body of the loop over the numbered opportunities. *)
Definition add_opportunity (markdown : string) (numbered : Z * pyval)
    : result exn string :=
  let '(i, opp) := numbered in
  o ← Py.get opp "opportunity" (PStr "");
  let markdown :=
    markdown +:+ ("### Opportunity " +:+ pretty i +:+ ": " +:+ fmt o +:+ nl) in
  r ← Py.get opp "reasoning" (PStr "");
  let markdown := markdown +:+ ("- **Reasoning:** " +:+ fmt r +:+ nl) in
  l ← Py.get opp "risk_level" (PStr "");
  l ← title_of l;
  let markdown := markdown +:+ ("- **Risk Level:** " +:+ l +:+ nl) in
  h ← Py.get opp "time_horizon" (PStr "");
  Return (markdown +:+ ("- **Time Horizon:** " +:+ fmt h +:+ nl +:+ nl)).

(** The body of the loop over the risks. *)
Definition add_risk (markdown : string) (risk : pyval) : result exn string :=
  Return (markdown +:+ ("- ⚠️ " +:+ fmt risk +:+ nl)).

(** [generate_markdown_report(sector, analysis, market_data)], with
    [timestamp] the text [datetime.now().strftime(..)] gives. *)
Definition generate_markdown_report (timestamp sector : string)
    (analysis : pyval) (market_data : list MarketData) : result exn string :=
  summary ← Py.get analysis "summary" (PStr "");
  let markdown :=
    ("# Market Analysis Report: " +:+ Py.title U sector +:+ " Sector" +:+ nl)
    +:+ "**Generated:** " +:+ timestamp +:+ nl
    +:+ nl
    +:+ "## Executive Summary" +:+ nl
    +:+ fmt summary +:+ nl
    +:+ nl
    +:+ "## Market Trends" +:+ nl in
  trends ← Py.get analysis "market_trends" (PList []);
  trends ← Py.iter trends;
  markdown ← for_each add_trend trends markdown;
  let markdown := markdown +:+ (nl +:+ "## Key Market Information" +:+ nl) in
  markdown ← for_each add_news (take 5 market_data) markdown;
  let markdown := markdown +:+ ("## Trade Opportunities" +:+ nl) in
  opps ← Py.get analysis "trade_opportunities" (PList []);
  opps ← Py.iter opps;
  markdown ← for_each add_opportunity (enumerate opps 1) markdown;
  let markdown := markdown +:+ ("## Potential Risks" +:+ nl) in
  risks ← Py.get analysis "risks" (PList []);
  risks ← Py.iter risks;
  markdown ← for_each add_risk risks markdown;
  let markdown := markdown +:+ (nl +:+ "---" +:+ nl) in
  Return (markdown +:+ "*Report generated by Trade Opportunities API. This is for informational purposes only.*").

End analysis.

(** The contents of a fenced block opened just before [after]: the text
    up to a closing fence, or to the end of [after] when none closes it;
    the contents hold no fence. *)
Definition block_contents (after contents : string) : Prop :=
  ¬ Py.occurs fence contents ∧
  (after = contents ∨ ∃ tail, after = contents +:+ fence +:+ tail).

(** The subsection the report gives one market record. *)
Definition news_entry (data : MarketData) : string :=
  "### " +:+ title data +:+ nl
  +:+ "**Source:** " +:+ source data +:+ " | **Date:** " +:+ date data +:+ nl
  +:+ snippet data +:+ nl +:+ nl.





End Analysis.

(** ** app/auth.py *)

Module Auth.
Import Models.

Record UserEntry := {
  entry_username : string;
  entry_password : string;
  entry_disabled : bool }.

Definition fake_users_db : gmap string UserEntry :=
  {[ "guest" := {| entry_username := "guest"; entry_password := "guest";
                   entry_disabled := false |};
     "trader" := {| entry_username := "trader"; entry_password := "trading123";
                    entry_disabled := false |} ]}.

(** [get_user(username)]. *)
Definition get_user (name : string) : option User :=
  match fake_users_db !! name with
  | Some user_dict =>
      Some {| username := entry_username user_dict;
              disabled := Some (entry_disabled user_dict) |}
  | None => None
  end.

Definition credentials_exception : HTTPException := {|
  status_code := HTTP_401_UNAUTHORIZED;
  detail := "Could not validate credentials";
  headers := [("WWW-Authenticate", "Bearer")] |}.

Section auth.
(** [jwt.decode(token, key, algorithms=..)]: the payload, or the
    exception raised. *)
Context (jwt_decode : string → string → list string → result exn pyval).

(** [get_current_user(token)]. *)
Definition get_current_user (cfg : Settings) (token : string) : result exn User :=
  name ←
    match
      (payload ← jwt_decode token (secret_key cfg) [algorithm cfg];
       name ← Py.get payload "sub" PNone;
       match name with
       | PNone => Raise (HTTP credentials_exception)
       | _ => validate_optional_str name
       end)
    with
    | Raise JWTError => Raise (HTTP credentials_exception)
    | outcome => outcome
    end;
  match name ≫= get_user with
  | Some user => Return user
  | None => Raise (HTTP credentials_exception)
  end.
End auth.

End Auth.

(** ** app/main.py *)

Module Main.
Import Models.

(** An entry of [sessions]. *)
Record Session := {
  last_login : string;
  token : string;
  last_analysis : option string;
  analysis_count : option Z }.

(** The module-level state: [rate_limiter.requests] and [sessions]. *)
Record State := {
  requests : gmap string (list Z);
  sessions : gmap string Session }.

(** What the handler reads of the request: [request.client], which is
    [None] or has a [host]. *)
Record Request := {
  client : option string }.

(** The collaborators from outside the repository. *)
Record Outside := {
  jwt_decode : string → string → list string → result exn pyval;
  ddgs_text : string → Z → result exn (list pyval);
  generate_content : string → result exn string;
  json_loads : string → result exn pyval;
  json_dumps : pyval → string;
  py_str : pyval → string;
  exn_str : exn → string;
  unicode : Py.Unicode }.

(** The clock readings of one request: [datetime.now()] in the rate
    limiter, and the texts of [strftime] in the report, of [isoformat] in
    the response and of [isoformat] in the session entry. *)
Record Clock := {
  limiter_now : Z;
  report_time : string;
  response_time : string;
  session_time : string }.

(** [AnalysisResponse(sector=.., ..)]. *)
Definition new_AnalysisResponse (sector timestamp : string) (summary market_trends : pyval)
    (key_news : list MarketData) (trade_opportunities : list TradeOpportunity)
    (risks : pyval) (markdown_report : string) : result exn AnalysisResponse :=
  s ← validate_str summary;
  t ← validate_list_str market_trends;
  r ← validate_list_str risks;
  Return {| Models.sector := sector; Models.timestamp := timestamp;
            Models.summary := s; Models.market_trends := t;
            Models.key_news := key_news;
            Models.trade_opportunities := trade_opportunities;
            Models.risks := r; Models.markdown_report := markdown_report |}.

Section endpoint.
Context (cfg : Settings) (out : Outside) (clock : Clock).

(** The body of the [try] in [analyze_sector]: fetch, analyse, render,
    assemble the response, note the analysis in the user's session. *)
Definition run_analysis (sector_lower : string) (current_user : User)
    (sessions : gmap string Session)
    : result exn (AnalysisResponse * gmap string Session) :=
  market_data ←
    Search.search_market_data (ddgs_text out) (unicode out) sector_lower 10;
  analysis ←
    Analysis.analyze_with_gemini (generate_content out) (json_loads out)
      (json_dumps out) cfg sector_lower market_data;
  markdown_report ←
    Analysis.generate_markdown_report (py_str out) (unicode out)
      (report_time clock) sector_lower analysis market_data;
  summary ← Py.get analysis "summary" (PStr "");
  market_trends ← Py.get analysis "market_trends" (PList []);
  opps ← Py.get analysis "trade_opportunities" (PList []);
  opps ← Py.iter opps;
  trade_opportunities ← for_append new_TradeOpportunity opps [];
  risks ← Py.get analysis "risks" (PList []);
  response_data ←
    new_AnalysisResponse sector_lower (response_time clock) summary
      market_trends (take 5 market_data) trade_opportunities risks
      markdown_report;
  let sessions :=
    match sessions !! username current_user with
    | Some session =>
        <[username current_user :=
            {| last_login := last_login session;
               token := token session;
               last_analysis := Some (session_time clock);
               analysis_count := Some (default 0 (analysis_count session) + 1) |}]>
          sessions
    | None => sessions
    end in
  Return (response_data, sessions).

(** [analyze_sector(sector, request, credentials)]. *)
Definition analyze_sector (sector : string) (request : Request)
    (credentials : string) (state : State)
    : result exn AnalysisResponse * State :=
  let sector_lower := Py.lower (unicode out) sector in
  if bool_decide (sector_lower ∉ allowed_sectors cfg) then
    (Raise (HTTP {|
       status_code := HTTP_400_BAD_REQUEST;
       detail := "Sector not supported. Allowed sectors: "
                 +:+ Py.join ", " (allowed_sectors cfg);
       headers := [] |}),
     state)
  else
    match Auth.get_current_user (jwt_decode out) cfg credentials with
    | Raise _ =>
        (Raise (HTTP {|
           status_code := HTTP_401_UNAUTHORIZED;
           detail := "Invalid authentication credentials";
           headers := [] |}),
         state)
    | Return current_user =>
        match client request with
        | None => (Raise AttributeError, state)
        | Some host =>
            let user_identifier := username current_user +:+ "_" +:+ host in
            let checked :=
              RateLimit.check_rate_limit cfg user_identifier
                (limiter_now clock) (requests state) in
            let state :=
              {| requests := checked.2; sessions := sessions state |} in
            match checked.1 with
            | Raise e => (Raise e, state)
            | Return _ =>
                match run_analysis sector_lower current_user (sessions state) with
                | Return (response_data, sessions') =>
                    (Return response_data,
                     {| requests := requests state; sessions := sessions' |})
                | Raise e =>
                    (Raise (HTTP {|
                       status_code := HTTP_500_INTERNAL_SERVER_ERROR;
                       detail := "Analysis failed: " +:+ exn_str out e;
                       headers := [] |}),
                     state)
                end
            end
        end
    end.

End endpoint.

End Main.

(** ** Sample inputs *)

Module Examples.

(** A search result as the provider returns it. *)
Definition search_result (n : string) : pyval :=
  PDict [("title", PStr ("Headline " +:+ n));
         ("body", PStr "Markets moved.");
         ("href", PStr "https://example.org/news")].

Definition six_results : list pyval :=
  search_result <$> ["1"; "2"; "3"; "4"; "5"; "6"].

(** The record the fetch makes of such a result. *)
Definition record (n : string) : Models.MarketData := {|
  Models.title := "Headline " +:+ n;
  Models.source := "Unknown";
  Models.snippet := "Markets moved.";
  Models.date := "Recent";
  Models.url := Some "https://example.org/news" |}.

Definition six_records : list Models.MarketData :=
  record <$> ["1"; "2"; "3"; "4"; "5"; "6"].

(** Collaborators: a decoder that knows one token, of the user guest; a
    search that finds six results; a model that cannot be reached. *)
Definition outside : Main.Outside := {|
  Main.jwt_decode := λ token _ _,
    if String.eqb token "guest-token"
    then Return (PDict [("sub", PStr "guest")])
    else Raise JWTError;
  Main.ddgs_text := λ _ _, Return six_results;
  Main.generate_content := λ _, Raise (External "ConnectionError");
  Main.json_loads := λ _, Raise JSONDecodeError;
  Main.json_dumps := λ _, "[]";
  Main.py_str := λ _, "";
  Main.exn_str := λ _, "";
  Main.unicode := Py.ascii_only |}.

Definition clock : Main.Clock := {|
  Main.limiter_now := 1000000;
  Main.report_time := "2024-06-01 12:00:00";
  Main.response_time := "2024-06-01T12:00:00.000250";
  Main.session_time := "2024-06-01T12:00:00.000300" |}.

(** The clock readings of a request that arrives [second] seconds after
    the origin. *)
Definition clock_at (second : Z) : Main.Clock := {|
  Main.limiter_now := second * 1000000;
  Main.report_time := Main.report_time clock;
  Main.response_time := Main.response_time clock;
  Main.session_time := Main.session_time clock |}.

(** Ten requests, one a second from the origin on. *)
Definition ten_clocks : list Main.Clock :=
  clock_at <$> [0; 1; 2; 3; 4; 5; 6; 7; 8; 9].

Definition request : Main.Request := {| Main.client := Some "127.0.0.1" |}.

(** The state of a process that has served nothing yet. *)
Definition fresh : Main.State := {| Main.requests := ∅; Main.sessions := ∅ |}.

(** The word banking written with the Kelvin sign for its k, and case
    mappings that lower the sign to the letter, as the interpreter's do. *)
Definition kelvin_banking : string := "banKing".

Definition knowing_kelvin : Py.Unicode := {|
  Py.unicode_lower := λ s,
    if String.eqb s kelvin_banking then "banking" else Py.lower_ascii s;
  Py.unicode_title := Py.title_ascii |}.

Definition outside_knowing_kelvin : Main.Outside := {|
  Main.jwt_decode := Main.jwt_decode outside;
  Main.ddgs_text := Main.ddgs_text outside;
  Main.generate_content := Main.generate_content outside;
  Main.json_loads := Main.json_loads outside;
  Main.json_dumps := Main.json_dumps outside;
  Main.py_str := Main.py_str outside;
  Main.exn_str := Main.exn_str outside;
  Main.unicode := knowing_kelvin |}.

End Examples.

(** ** Runs of the rate limiter *)

Module Runs.

(** The clock readings of the calls of a run that were admitted for
    [key], in call order. *)
Fixpoint admitted (cfg : Settings) (key : string) (calls : list (string * Z))
    (requests : gmap string (list Z)) : list Z :=
  match calls with
  | [] => []
  | (k, now) :: calls' =>
      let r := RateLimit.is_rate_limited cfg k now requests in
      (if decide (k = key) then if r.1 then [] else [now] else [])
      ++ admitted cfg key calls' r.2
  end.

(** The clock never goes back: every reading of the run is at least the
    one before it, the first at least [t]. *)
Fixpoint clock_from (t : Z) (calls : list (string * Z)) : Prop :=
  match calls with
  | [] => True
  | (_, now) :: calls' => t ≤ now ∧ clock_from now calls'
  end.

(** The times of the trailing window of [W] microseconds that ends at [s]. *)
Definition in_window (W s t : Z) : Prop := s - W < t ∧ t ≤ s.

End Runs.

(** ** app/auth.py, the issuing side *)

Module Issue.
Import Models.

(** [authenticate_user(username, password)]: the user, or [False]. *)
Definition authenticate_user (name password : string) : option User :=
  match Auth.fake_users_db !! name with
  | None => None
  | Some user_data =>
      if decide (password = Auth.entry_password user_data) then
        Some {| username := Auth.entry_username user_data;
                disabled := Some (Auth.entry_disabled user_data) |}
      else None
  end.

(** A claim to encode: a value, or the [datetime] of the expiry. *)
Inductive claim : Type :=
  | ClaimValue (v : pyval)
  | ClaimTime (t : Z).

(** [d.update({key: v})]: in place when the key is there, at the end
    otherwise. *)
Fixpoint dict_update (d : list (string * claim)) (key : string) (v : claim)
    : list (string * claim) :=
  match d with
  | [] => [(key, v)]
  | (k, old) :: d' =>
      if decide (k = key) then (k, v) :: d' else (k, old) :: dict_update d' key v
  end.

(** [timedelta(minutes=m)], in microseconds. *)
Definition timedelta_minutes (m : Z) : Z := m * 60 * 1000000.

Section issue.
(** [jwt.encode(claims, key, algorithm=..)]: the token, or the exception
    raised. *)
Context (jwt_encode : list (string * claim) → string → string → result exn string).

(** [create_access_token(data, expires_delta)], with [utcnow] the reading
    of [datetime.utcnow()].  A zero [timedelta] is false, like [None]. *)
Definition create_access_token (cfg : Settings) (data : list (string * claim))
    (expires_delta : option Z) (utcnow : Z) : result exn string :=
  let to_encode := data in
  let expire :=
    match expires_delta with
    | Some delta => if decide (delta = 0) then utcnow + timedelta_minutes 15
                    else utcnow + delta
    | None => utcnow + timedelta_minutes 15
    end in
  let to_encode := dict_update to_encode "exp" (ClaimTime expire) in
  jwt_encode to_encode (secret_key cfg) (algorithm cfg).

End issue.

End Issue.

(** ** app/main.py, the other endpoints *)

Module Endpoints.
Import Models Main.

Record Token := {
  access_token : string;
  token_type : string }.

(** [JSONResponse(status_code=.., content=..)] and
    [PlainTextResponse(content=.., headers=..)], by the arguments they are
    built from; [None] is for headers that are not passed. *)
Record JSONResponse := {
  json_status : Z;
  json_content : list (string * pyval);
  json_headers : option (list (string * string)) }.

Record PlainTextResponse := {
  text_content : string;
  text_headers : option (list (string * string)) }.

(** The sessions after an analysis for [user]: the entry of a user who has
    one notes the analysis and counts it. *)
Definition sessions_after (clock : Clock) (user : User)
    (sessions : gmap string Session) : gmap string Session :=
  match sessions !! username user with
  | Some session =>
      <[username user :=
          {| last_login := last_login session;
             token := token session;
             last_analysis := Some (session_time clock);
             analysis_count := Some (default 0 (analysis_count session) + 1) |}]>
        sessions
  | None => sessions
  end.

Section endpoints.
Context (cfg : Settings).
Context (jwt_encode : list (string * Issue.claim) → string → string → result exn string).

(** [login_for_access_token(form_data)], with [utcnow] the reading in
    [create_access_token] and [login_time] the text of
    [datetime.now().isoformat()]. *)
Definition login_for_access_token (name password : string) (utcnow : Z)
    (login_time : string) (sessions : gmap string Session)
    : result exn Token * gmap string Session :=
  match Issue.authenticate_user name password with
  | None =>
      (Raise (HTTP {|
         status_code := HTTP_401_UNAUTHORIZED;
         detail := "Incorrect username or password";
         headers := [("WWW-Authenticate", "Bearer")] |}),
       sessions)
  | Some user =>
      match Issue.create_access_token jwt_encode cfg
              [("sub", Issue.ClaimValue (PStr (username user)))] None utcnow with
      | Raise e => (Raise e, sessions)
      | Return token =>
          (Return {| access_token := token; token_type := "bearer" |},
           <[username user :=
               {| last_login := login_time; Main.token := token;
                  last_analysis := None; analysis_count := None |}]> sessions)
      end
  end.

(** [analyze_sector_markdown(sector, request, credentials)], with
    [file_date] the text of [datetime.now().strftime('%Y%m%d')]. *)
Definition analyze_sector_markdown (out : Outside) (clock : Clock)
    (file_date : string) (sector : string) (request : Request)
    (credentials : string) (state : State)
    : result exn PlainTextResponse * State :=
  let served := analyze_sector cfg out clock sector request credentials state in
  match served.1 with
  | Raise e => (Raise e, served.2)
  | Return analysis =>
      (Return {|
         text_content := markdown_report analysis;
         text_headers :=
           Some [("Content-Disposition",
                  "attachment; filename=" +:+ sector +:+ "_analysis_"
                  +:+ file_date +:+ ".md")] |},
       served.2)
  end.

End endpoints.

(** The state after the analyze endpoint has answered a run of requests
    that differ in their clock readings only. *)
Fixpoint served_state (cfg : Settings) (out : Outside) (sector : string)
    (request : Request) (credentials : string) (clocks : list Clock)
    (state : State) : State :=
  match clocks with
  | [] => state
  | clock :: clocks' =>
      served_state cfg out sector request credentials clocks'
        (analyze_sector cfg out clock sector request credentials state).2
  end.

(** [http_exception_handler(request, exc)]. *)
Definition http_exception_handler (exc : HTTPException) : JSONResponse := {|
  json_status := status_code exc;
  json_content := [("detail", PStr (detail exc))];
  json_headers := None |}.

(** What the client of the analyze endpoint gets when the endpoint raises
    an [HTTPException]: the answer of the registered handler. *)
Definition answer_of (served : result exn AnalysisResponse) : option JSONResponse :=
  match served with
  | Raise (HTTP exc) => Some (http_exception_handler exc)
  | _ => None
  end.

End Endpoints.

(** ** Texts without backticks *)

Module Text.

(** No character of [s] is a backtick. *)
Fixpoint backtick_free (s : string) : bool :=
  match s with
  | EmptyString => true
  | String c s' => negb (Ascii.eqb c "`") && backtick_free s'
  end.

(** [s] does not start with a backtick. *)
Definition no_backtick_ahead (s : string) : Prop :=
  Py.drop_prefix "`" s = None.

End Text.

(** ** Sample inputs with a configured key *)

Module Live.

(** A JSON text of the shape asked for, and the value it parses to. *)
Definition answer_text : string :=
  "{" +:+ Analysis.quoted "summary" +:+ ": " +:+ Analysis.quoted "Steady demand."
  +:+ ", " +:+ Analysis.quoted "market_trends" +:+ ": ["
  +:+ Analysis.quoted "Consolidation" +:+ "]"
  +:+ ", " +:+ Analysis.quoted "trade_opportunities" +:+ ": []"
  +:+ ", " +:+ Analysis.quoted "risks" +:+ ": [" +:+ Analysis.quoted "Rates" +:+ "]}".

Definition answer_value : pyval :=
  PDict [("summary", PStr "Steady demand.");
         ("market_trends", PList [PStr "Consolidation"]);
         ("trade_opportunities", PList []);
         ("risks", PList [PStr "Rates"])].

(** Collaborators: the model answers [text]; the parser knows the sample
    text and the text of an empty array. *)
Definition outside (text : string) : Main.Outside := {|
  Main.jwt_decode := Main.jwt_decode Examples.outside;
  Main.ddgs_text := Main.ddgs_text Examples.outside;
  Main.generate_content := λ _, Return text;
  Main.json_loads := λ json_str,
    if String.eqb json_str answer_text then Return answer_value
    else if String.eqb json_str "[]" then Return (PList [])
    else Raise JSONDecodeError;
  Main.json_dumps := λ _, "[]";
  Main.py_str := λ _, "";
  Main.exn_str := λ _, "'list' object has no attribute 'get'";
  Main.unicode := Py.ascii_only |}.

(** An answer with one opportunity, and collaborators whose model gives
    the text [advice], which parses to it. *)
Definition advice_value : pyval :=
  PDict [("summary", PStr "Steady demand.");
         ("market_trends", PList [PStr "Consolidation"]);
         ("trade_opportunities",
          PList [PDict [("opportunity", PStr "Buy lenders");
                        ("reasoning", PStr "Credit is growing.");
                        ("risk_level", PStr "high");
                        ("time_horizon", PStr "short-term")]]);
         ("risks", PList [PStr "Rates"])].

Definition advising : Main.Outside := {|
  Main.jwt_decode := Main.jwt_decode Examples.outside;
  Main.ddgs_text := Main.ddgs_text Examples.outside;
  Main.generate_content := λ _, Return "advice";
  Main.json_loads := λ json_str,
    if String.eqb json_str "advice" then Return advice_value
    else Raise JSONDecodeError;
  Main.json_dumps := λ _, "[]";
  Main.py_str := λ _, "";
  Main.exn_str := λ _, "";
  Main.unicode := Py.ascii_only |}.

End Live.

(** ** Reading the claims of a token *)

Module Claims.

(** [d.get(key)] on the claims to encode. *)
Fixpoint lookup (d : list (string * Issue.claim)) (key : string)
    : option Issue.claim :=
  match d with
  | [] => None
  | (k, v) :: d' => if decide (k = key) then Some v else lookup d' key
  end.

(** The pairs of name and password of the user table. *)
Definition known_login (name password : string) : Prop :=
  (name = "guest" ∧ password = "guest") ∨
  (name = "trader" ∧ password = "trading123").

End Claims.

(** * Properties *)

(** ** The rate limiter *)

Section filter_facts.
Context {A : Type} (P : A → Prop) `{!∀ x, Decision (P x)}.

Lemma filter_keeps_all (l : list A) : Forall P l → filter P l = l.
Proof.
  induction 1 as [|x l Hx _ IH]; [done|].
  by rewrite filter_cons_True, IH.
Qed.

Lemma filter_drops_all (l : list A) : Forall (λ x, ¬ P x) l → filter P l = [].
Proof.
  induction 1 as [|x l Hx _ IH]; [done|].
  by rewrite filter_cons_False.
Qed.
End filter_facts.

Section limiter_facts.
Import RateLimit.
Context (cfg : Settings).

Let N := rate_limit_requests cfg.
Let W := timedelta_seconds (rate_limit_period cfg).

(** What one check stores under its own key. *)
Lemma is_rate_limited_stored key now requests :
  (is_rate_limited cfg key now requests).2 !! key =
    Some (let kept := filter (λ t, now - t < W) (requests !!! key) in
          if bool_decide (N ≤ Z.of_nat (length kept)) then kept
          else kept ++ [now]).
Proof.
  unfold is_rate_limited; cbn zeta; fold N W.
  case_bool_decide; cbn; by rewrite lookup_insert_eq.
Qed.

Lemma is_rate_limited_other key k now requests :
  key ≠ k → (is_rate_limited cfg key now requests).2 !! k = requests !! k.
Proof.
  intros Hne. unfold is_rate_limited; cbn zeta.
  case_bool_decide; cbn; by rewrite lookup_insert_ne.
Qed.

Lemma checks_other key k ts requests :
  key ≠ k → (checks cfg ((key,.) <$> ts) requests).2 !! k = requests !! k.
Proof.
  intros Hne. revert requests.
  induction ts as [|t ts IH]; intros requests; [done|].
  cbn. by rewrite IH, is_rate_limited_other.
Qed.

(** A check that finds every stored time inside the window and the
    quota not yet reached admits the request and records it. *)
Lemma is_rate_limited_admit key now requests :
  Forall (λ t, now - t < W) (requests !!! key) →
  Z.of_nat (length (requests !!! key)) < N →
  is_rate_limited cfg key now requests =
    (false, <[key := requests !!! key ++ [now]]> requests).
Proof.
  intros Hin Hlen. unfold is_rate_limited; cbn zeta; fold N W.
  rewrite filter_keeps_all by done.
  rewrite bool_decide_eq_false_2 by lia. done.
Qed.

(** A check that finds the quota reached inside the window refuses the
    request and leaves the stored times as they were. *)
Lemma is_rate_limited_deny key now requests :
  Forall (λ t, now - t < W) (requests !!! key) →
  N ≤ Z.of_nat (length (requests !!! key)) →
  is_rate_limited cfg key now requests =
    (true, <[key := requests !!! key]> requests).
Proof.
  intros Hin Hlen. unfold is_rate_limited; cbn zeta; fold N W.
  rewrite filter_keeps_all by done.
  rewrite bool_decide_eq_true_2 by lia. done.
Qed.

(** A check that finds every stored time out of the window starts the
    key afresh. *)
Lemma is_rate_limited_expired key now requests :
  Forall (λ t, W ≤ now - t) (requests !!! key) →
  0 < N →
  is_rate_limited cfg key now requests = (false, <[key := [now]]> requests).
Proof.
  intros Hout Hpos. unfold is_rate_limited; cbn zeta; fold N W.
  rewrite filter_drops_all by (eapply Forall_impl; [done|]; cbn; lia).
  rewrite bool_decide_eq_false_2 by (cbn; lia). done.
Qed.

Lemma checks_admit key hi ts : ∀ requests,
  Forall (λ t, hi - W < t ≤ hi) (requests !!! key) →
  Forall (λ t, hi - W < t ≤ hi) ts →
  Z.of_nat (length (requests !!! key) + length ts) ≤ N →
  (checks cfg ((key,.) <$> ts) requests).1 = replicate (length ts) false ∧
  (checks cfg ((key,.) <$> ts) requests).2 !!! key = requests !!! key ++ ts.
Proof.
  induction ts as [|t ts IH]; intros requests Hl Hts Hlen.
  - cbn. by rewrite app_nil_r.
  - apply Forall_cons in Hts as [Ht Hts]. cbn [length] in Hlen.
    cbn [fmap list_fmap checks].
    rewrite is_rate_limited_admit; [|by eapply Forall_impl; [done|]; cbn; lia|lia].
    cbn [fst snd].
    destruct (IH (<[key := requests !!! key ++ [t]]> requests)) as [IH1 IH2].
    + rewrite lookup_total_insert_eq. apply Forall_app; split; [done|].
      by apply Forall_singleton.
    + done.
    + rewrite lookup_total_insert_eq, length_app. cbn [length]. lia.
    + rewrite IH1, IH2, lookup_total_insert_eq, <-app_assoc. done.
Qed.

(** The bound on stored sequences survives every check. *)
Lemma is_rate_limited_within_quota key now requests :
  0 ≤ N → within_quota cfg requests →
  within_quota cfg (is_rate_limited cfg key now requests).2.
Proof.
  intros HN Hq k l. destruct (decide (key = k)) as [<-|Hne].
  - rewrite is_rate_limited_stored. intros [= <-]. cbn zeta.
    fold N. case_bool_decide as Hc.
    + pose proof (length_filter (λ t, now - t < W) (requests !!! key)) as Hf.
      destruct (requests !! key) as [l0|] eqn:Hk.
      * rewrite lookup_total_alt, Hk in *. cbn in *.
        specialize (Hq _ _ Hk). fold N in Hq. lia.
      * rewrite lookup_total_alt, Hk in *. cbn in *. lia.
    + rewrite length_app. cbn [length]. lia.
  - rewrite is_rate_limited_other by done. apply Hq.
Qed.

Lemma checks_within_quota calls : ∀ requests,
  0 ≤ N → within_quota cfg requests →
  within_quota cfg (checks cfg calls requests).2.
Proof.
  induction calls as [|[key now] calls IH]; intros requests HN Hq; [done|].
  cbn. apply IH; [done|]. by apply is_rate_limited_within_quota.
Qed.

End limiter_facts.

(** C1.  For every key with no stored times, [N] checks followed by one
    more, all inside one trailing window of [W] seconds (every earlier
    call later than the last call minus [W], none after it): the first
    [N] are admitted, the next one is refused and is not recorded (the
    stored sequence is exactly the [N] admitted times); a check at least
    [W] seconds after each admitted time is admitted again. *)
Theorem quota_admits_n_denies_next_then_resets
    (cfg : Settings) (key : string) (ts : list Z) (t_denied t_next : Z)
    (requests : gmap string (list Z)) :
  0 < rate_limit_requests cfg →
  requests !!! key = [] →
  Z.of_nat (length ts) = rate_limit_requests cfg →
  Forall (λ t, t_denied - RateLimit.timedelta_seconds (rate_limit_period cfg) < t
               ≤ t_denied) ts →
  Forall (λ t, RateLimit.timedelta_seconds (rate_limit_period cfg) ≤ t_next - t) ts →
  (RateLimit.checks cfg ((key,.) <$> ts) requests).1 = replicate (length ts) false ∧
  (RateLimit.is_rate_limited cfg key t_denied
     (RateLimit.checks cfg ((key,.) <$> ts) requests).2).1 = true ∧
  (RateLimit.is_rate_limited cfg key t_denied
     (RateLimit.checks cfg ((key,.) <$> ts) requests).2).2 !! key = Some ts ∧
  (RateLimit.is_rate_limited cfg key t_next
     (RateLimit.is_rate_limited cfg key t_denied
        (RateLimit.checks cfg ((key,.) <$> ts) requests).2).2).1 = false ∧
  (RateLimit.is_rate_limited cfg key t_next
     (RateLimit.is_rate_limited cfg key t_denied
        (RateLimit.checks cfg ((key,.) <$> ts) requests).2).2).2 !! key
    = Some [t_next].
Proof.
  intros HN Hfresh Hlen Hwin Hlater.
  destruct (checks_admit cfg key t_denied ts requests) as [Hv Hst].
  { rewrite Hfresh. constructor. }
  { done. }
  { rewrite Hfresh. cbn [length]. lia. }
  rewrite Hfresh in Hst. cbn [app] in Hst.
  split; [done|].
  rewrite is_rate_limited_deny; rewrite ?Hst.
  2:{ eapply Forall_impl; [exact Hwin|]. cbn. lia. }
  2:{ lia. }
  cbn [fst snd]. split; [done|]. split; [by rewrite lookup_insert_eq|].
  rewrite is_rate_limited_expired; rewrite ?lookup_total_insert_eq; try done.
  cbn [fst snd]. split; [done|]. by rewrite lookup_insert_eq.
Qed.

Lemma quota_admits_n_denies_next_then_resets_witness :
  (RateLimit.checks settings
     (("guest_127.0.0.1",.) <$>
        [0; 1000000; 2000000; 3000000; 4000000;
         5000000; 6000000; 7000000; 8000000; 9000000]) ∅).1
    = replicate 10 false ∧
  (RateLimit.is_rate_limited settings "guest_127.0.0.1" 59999999
     (RateLimit.checks settings
        (("guest_127.0.0.1",.) <$>
           [0; 1000000; 2000000; 3000000; 4000000;
            5000000; 6000000; 7000000; 8000000; 9000000]) ∅).2).1 = true.
Proof.
  pose proof (quota_admits_n_denies_next_then_resets settings "guest_127.0.0.1"
    [0; 1000000; 2000000; 3000000; 4000000;
     5000000; 6000000; 7000000; 8000000; 9000000] 59999999 69000000 ∅) as H.
  destruct H as (H1 & H2 & _).
  - reflexivity.
  - reflexivity.
  - reflexivity.
  - repeat (apply Forall_cons; split;
              [unfold RateLimit.timedelta_seconds; cbn; lia|]);
      apply Forall_nil_2.
  - repeat (apply Forall_cons; split;
              [unfold RateLimit.timedelta_seconds; cbn; lia|]);
      apply Forall_nil_2.
  - split; [exact H1 | exact H2].
Defined.

(** C4.  For distinct keys [A] and [B], a check on [A] leaves what is
    stored for [B] as it was, so does any run of checks on [A], and the
    verdict of a later check on [B] is the one [B] would have had without
    them. *)
Theorem checks_on_one_key_frame_another
    (cfg : Settings) (A B : string) (ts : list Z) (now : Z)
    (requests : gmap string (list Z)) :
  A ≠ B →
  (∀ t, (RateLimit.is_rate_limited cfg A t requests).2 !! B = requests !! B) ∧
  (RateLimit.checks cfg ((A,.) <$> ts) requests).2 !! B = requests !! B ∧
  (RateLimit.is_rate_limited cfg B now
     (RateLimit.checks cfg ((A,.) <$> ts) requests).2).1
    = (RateLimit.is_rate_limited cfg B now requests).1.
Proof.
  intros Hne. split; [|split].
  - intros t. by apply is_rate_limited_other.
  - by apply checks_other.
  - pose proof (checks_other cfg A B ts requests Hne) as Hsame.
    unfold RateLimit.is_rate_limited. cbn zeta.
    rewrite !lookup_total_alt, Hsame.
    by repeat case_bool_decide.
Qed.

Lemma checks_on_one_key_frame_another_witness :
  (RateLimit.is_rate_limited settings "trader_10.0.0.2" 11
     (RateLimit.checks settings
        (("guest_127.0.0.1",.) <$> [0; 1; 2; 3; 4; 5; 6; 7; 8; 9; 10]) ∅).2).1
    = (RateLimit.is_rate_limited settings "trader_10.0.0.2" 11 ∅).1.
Proof.
  apply (checks_on_one_key_frame_another settings
           "guest_127.0.0.1" "trader_10.0.0.2"
           [0; 1; 2; 3; 4; 5; 6; 7; 8; 9; 10] 11 ∅).
  discriminate.
Defined.

(** Whenever [is_rate_limited] refuses, [check_rate_limit] raises the 429
    exception whose message and whose Retry-After header both carry the
    configured period. *)
Lemma denied_check_raises_retry_after
    (cfg : Settings) (user_identifier : string) (now : Z)
    (requests : gmap string (list Z)) :
  (RateLimit.is_rate_limited cfg user_identifier now requests).1 = true →
  (RateLimit.check_rate_limit cfg user_identifier now requests).1 =
    Raise (HTTP {|
      status_code := 429;
      detail := "Rate limit exceeded. Try again in "
                +:+ pretty (rate_limit_period cfg) +:+ " seconds.";
      headers := [("Retry-After", pretty (rate_limit_period cfg))] |}).
Proof.
  intros Hdenied.
  unfold RateLimit.check_rate_limit.
  destruct (RateLimit.is_rate_limited cfg user_identifier now requests)
    as [limited requests'].
  cbn in Hdenied. by subst limited.
Qed.

(** C10.  Starting from the empty state, after any run of checks the
    sequence stored for any key holds at most [N] times; the bound is
    kept by every single check. *)
Theorem stored_times_never_exceed_quota
    (cfg : Settings) (calls : list (string * Z)) (key : string) (l : list Z) :
  0 ≤ rate_limit_requests cfg →
  (RateLimit.checks cfg calls ∅).2 !! key = Some l →
  Z.of_nat (length l) ≤ rate_limit_requests cfg ∧
  (∀ k now requests,
     RateLimit.within_quota cfg requests →
     RateLimit.within_quota cfg (RateLimit.is_rate_limited cfg k now requests).2).
Proof.
  intros HN Hl. split.
  - eapply (checks_within_quota cfg calls ∅); [done| |exact Hl].
    intros k l0. by rewrite lookup_empty.
  - intros k now requests. by apply is_rate_limited_within_quota.
Qed.

Lemma stored_times_never_exceed_quota_witness :
  (RateLimit.checks settings
     (("guest_127.0.0.1",.) <$> [0; 1; 2; 3; 4; 5; 6; 7; 8; 9; 10; 11]) ∅).2
    !! "guest_127.0.0.1" = Some [0; 1; 2; 3; 4; 5; 6; 7; 8; 9] ∧
  Z.of_nat (length [0; 1; 2; 3; 4; 5; 6; 7; 8; 9]) ≤ rate_limit_requests settings.
Proof.
  split; [reflexivity|].
  apply (stored_times_never_exceed_quota settings
           (("guest_127.0.0.1",.) <$> [0; 1; 2; 3; 4; 5; 6; 7; 8; 9; 10; 11])
           "guest_127.0.0.1" [0; 1; 2; 3; 4; 5; 6; 7; 8; 9]).
  - cbn. lia.
  - reflexivity.
Defined.

(** ** Loops and results *)

Section loop_facts.
Context {E A B : Type}.

Lemma bind_Return (a : A) (k : A → result E B) : Return a ≫= k = k a.
Proof. reflexivity. Qed.

Lemma bind_Raise (e : E) (k : A → result E B) : Raise e ≫= k = Raise e.
Proof. reflexivity. Qed.

Lemma for_append_length (f : A → result E B) (xs : list A) : ∀ acc out,
  for_append f xs acc = Return out →
  length out = (length acc + length xs)%nat.
Proof.
  induction xs as [|x xs IH]; intros acc out.
  - cbn. intros [= <-]. lia.
  - unfold for_append in *. cbn. destruct (f x) as [y|e]; cbn; [|done].
    intros Hout. apply IH in Hout. rewrite length_app in Hout. cbn in *. lia.
Qed.

(** A loop over items that all convert returns one entry per item. *)
Lemma for_append_all_return (f : A → result E B) (xs : list A) :
  Forall (λ x, ∃ y, f x = Return y) xs →
  ∀ acc, ∃ out, for_append f xs acc = Return out.
Proof.
  induction 1 as [|x xs [y Hy] _ IH]; intros acc.
  - by exists acc.
  - unfold for_append in *. cbn. rewrite Hy. cbn. apply IH.
Qed.

(** A loop that meets an item that raises, raises. *)
Lemma for_append_some_raise (f : A → result E B) (xs : list A) :
  Exists (λ x, ∃ e, f x = Raise e) xs →
  ∀ acc, ∃ e, for_append f xs acc = Raise e.
Proof.
  induction xs as [|x xs IH]; intros Hex acc.
  - by apply Exists_nil in Hex.
  - unfold for_append in *. cbn. destruct (f x) as [y|e] eqn:Hx; cbn.
    + apply IH. apply Exists_cons in Hex as [[e He]|Hex]; [congruence|done].
    + by exists e.
Qed.
End loop_facts.

(** ** The market-data fetch *)

Section fetch_facts.
Import Models Search.
Context (U : Py.Unicode).

Lemma get_fallback_data_length sector : length (get_fallback_data U sector) = 1%nat.
Proof.
  unfold get_fallback_data, fallback_data.
  destruct (decide (sector = "pharmaceuticals")) as [->|?]; [done|].
  destruct (decide (sector = "technology")) as [->|?]; [done|].
  destruct (decide (sector = "agriculture")) as [->|?]; [done|].
  rewrite !lookup_insert_ne by done. by rewrite lookup_singleton_ne.
Qed.

Lemma get_fallback_data_generic sector :
  fallback_data !! sector = None →
  get_fallback_data U sector =
    [ {| title := Py.title U sector +:+ " Sector Analysis";
         source := "Market Intelligence";
         snippet := "Current trends and opportunities in the " +:+ sector
                    +:+ " sector.";
         date := "2024";
         url := Some "" |} ].
Proof. unfold get_fallback_data. by intros ->. Qed.

Lemma fallback_data_other sector :
  sector ∉ ["pharmaceuticals"; "technology"; "agriculture"] →
  fallback_data !! sector = None.
Proof.
  intros Hother. unfold fallback_data.
  rewrite !lookup_insert_ne, lookup_singleton_ne; [done|..];
    intros <-; apply Hother; repeat constructor.
Qed.
End fetch_facts.

(** C2, as the code has it.  For every provider and every sector the
    fetch returns and never raises.  When the search raises, or a result
    does not convert to a record, it returns the fallback, which always
    holds exactly one record: for each of the three sectors of the table
    the record written there, for every other sector the generic record
    that names the sector, its title starting with [sector.title()] (so
    "Real-Estate Sector Analysis" for "real-estate").  When the search
    returns and every result converts, the fetch returns one record per
    result. *)
Theorem fetch_returns_fallback_on_failure_else_one_record_per_result
    (U : Py.Unicode) (ddgs_text : string → Z → result exn (list pyval))
    (sector : string) (max_results : Z) :
  (∃ market_data,
     Search.search_market_data ddgs_text U sector max_results = Return market_data) ∧
  (∀ e, ddgs_text (Search.search_query sector) max_results = Raise e →
        Search.search_market_data ddgs_text U sector max_results
          = Return (Search.get_fallback_data U sector)) ∧
  (∀ results,
     ddgs_text (Search.search_query sector) max_results = Return results →
     Exists (λ item, ∃ e, Search.market_record item = Raise e) results →
     Search.search_market_data ddgs_text U sector max_results
       = Return (Search.get_fallback_data U sector)) ∧
  length (Search.get_fallback_data U sector) = 1%nat ∧
  Search.get_fallback_data U "pharmaceuticals" =
    [ {| Models.title := "Indian Pharma Sector Growth Outlook 2024";
         Models.source := "Industry Report";
         Models.snippet := "Indian pharmaceutical sector expected to grow at 8-10% CAGR driven by exports and domestic demand.";
         Models.date := "2024";
         Models.url := Some "" |} ] ∧
  Search.get_fallback_data U "technology" =
    [ {| Models.title := "India Tech Sector: AI and Digital Transformation";
         Models.source := "Tech Analysis";
         Models.snippet := "Technology sector in India seeing increased investment in AI, cloud computing, and digital services.";
         Models.date := "2024";
         Models.url := Some "" |} ] ∧
  Search.get_fallback_data U "agriculture" =
    [ {| Models.title := "Agricultural Sector Modernization Trends";
         Models.source := "Agri Report";
         Models.snippet := "Precision farming and organic exports driving growth in Indian agriculture sector.";
         Models.date := "2024";
         Models.url := Some "" |} ] ∧
  (sector ∉ ["pharmaceuticals"; "technology"; "agriculture"] →
   Search.get_fallback_data U sector =
     [ {| Models.title := Py.title U sector +:+ " Sector Analysis";
          Models.source := "Market Intelligence";
          Models.snippet := "Current trends and opportunities in the "
                            +:+ sector +:+ " sector.";
          Models.date := "2024";
          Models.url := Some "" |} ]) ∧
  Search.get_fallback_data U "real-estate" =
    [ {| Models.title := "Real-Estate Sector Analysis";
         Models.source := "Market Intelligence";
         Models.snippet := "Current trends and opportunities in the real-estate sector.";
         Models.date := "2024";
         Models.url := Some "" |} ] ∧
  (∀ results,
     ddgs_text (Search.search_query sector) max_results = Return results →
     Forall (λ item, ∃ record, Search.market_record item = Return record) results →
     ∃ market_data,
       Search.search_market_data ddgs_text U sector max_results = Return market_data ∧
       length market_data = length results).
Proof.
  unfold Search.search_market_data.
  split; [|split; [|split; [|split; [|split; [|split; [|split; [|split; [|split]]]]]]]].
  - destruct (ddgs_text _ _) as [results|e]; cbn; [|by eexists].
    destruct (for_append _ _ _); cbn; by eexists.
  - by intros e ->.
  - intros results -> Hbad. cbn.
    by destruct (for_append_some_raise _ _ Hbad []) as [e ->].
  - apply get_fallback_data_length.
  - reflexivity.
  - reflexivity.
  - reflexivity.
  - intros Hother. by apply get_fallback_data_generic, fallback_data_other.
  - reflexivity.
  - intros results -> Hgood. cbn.
    destruct (for_append_all_return _ _ Hgood []) as [out Hout].
    rewrite Hout. cbn. exists out. split; [done|].
    by apply for_append_length in Hout.
Qed.

(** A search that succeeds and finds nothing makes the fetch return the
    empty sequence. *)
Lemma fetch_is_empty_when_search_finds_nothing :
  Search.search_market_data (λ _ _, Return []) Py.ascii_only "technology" 10
    = Return [].
Proof. reflexivity. Qed.

(** ** Text: occurrences, cuts and splits *)

Section text_facts.
Import Py.

Lemma app_nil_l_s (a : string) : "" +:+ a = a.
Proof. reflexivity. Qed.

Lemma app_cons_s (x : ascii) (a b : string) :
  String x a +:+ b = String x (a +:+ b).
Proof. reflexivity. Qed.

Lemma app_assoc_s (a b c : string) : (a +:+ b) +:+ c = a +:+ b +:+ c.
Proof.
  induction a as [|x a IH]; [done|]. rewrite !app_cons_s. by rewrite IH.
Qed.

Lemma app_nil_r_s (a : string) : a +:+ "" = a.
Proof.
  induction a as [|x a IH]; [done|]. rewrite app_cons_s. by rewrite IH.
Qed.

Lemma length_app_s (a b : string) :
  String.length (a +:+ b) = (String.length a + String.length b)%nat.
Proof.
  induction a as [|x a IH]; [done|]. rewrite app_cons_s. cbn. by rewrite IH.
Qed.

Lemma drop_prefix_Some sep : ∀ s rest,
  drop_prefix sep s = Some rest ↔ s = sep +:+ rest.
Proof.
  induction sep as [|a sep IH]; intros s rest; cbn.
  - rewrite app_nil_l_s. split; [by intros [= ->]|by intros ->].
  - rewrite app_cons_s. destruct s as [|b s]; [done|].
    case_decide as Hab.
    + subst b. rewrite IH. split; [by intros ->|by intros [= ->]].
    + split; [done|]. intros [= ? ?]. done.
Qed.

Lemma cut_leftmost sep : ∀ s before after,
  cut sep s = Some (before, after) → leftmost sep s before after.
Proof.
  induction s as [|c s IH]; intros before after; cbn.
  - destruct (drop_prefix sep "") as [rest|] eqn:Hd; [|done].
    intros [= <- <-]. apply drop_prefix_Some in Hd.
    split; [done|]. intros; cbn; lia.
  - destruct (drop_prefix sep (String c s)) as [rest|] eqn:Hd.
    + intros [= <- <-]. apply drop_prefix_Some in Hd.
      split; [done|]. intros; cbn; lia.
    + destruct (cut sep s) as [[b a]|] eqn:Hc; [|done].
      intros [= <- <-]. destruct (IH _ _ eq_refl) as [Heq Hmin].
      split; [rewrite app_cons_s; by rewrite <-Heq|].
      intros [|c' b'] a' Heq'.
      * rewrite app_nil_l_s in Heq'.
        apply drop_prefix_Some in Heq'. congruence.
      * rewrite app_cons_s in Heq'. injection Heq' as -> Heq'.
        specialize (Hmin _ _ Heq'). cbn. lia.
Qed.

Lemma cut_None sep : ∀ s, cut sep s = None → ¬ occurs sep s.
Proof.
  induction s as [|c s IH]; cbn.
  - destruct (drop_prefix sep "") as [rest|] eqn:Hd; [done|].
    intros _ ([|c' b] & a & Heq); [|done].
    rewrite app_nil_l_s in Heq.
    apply drop_prefix_Some in Heq. congruence.
  - destruct (drop_prefix sep (String c s)) as [rest|] eqn:Hd; [done|].
    destruct (cut sep s) as [[b a]|] eqn:Hc; [done|].
    intros _ ([|c' b'] & a' & Heq).
    + rewrite app_nil_l_s in Heq.
      apply drop_prefix_Some in Heq. congruence.
    + rewrite app_cons_s in Heq. injection Heq as -> Heq.
      apply IH; [done|]. by exists b', a'.
Qed.

Lemma occurs_cut sep s :
  occurs sep s → ∃ before after, cut sep s = Some (before, after).
Proof.
  intros Hocc. destruct (cut sep s) as [[b a]|] eqn:Hc; [by eauto|].
  by apply cut_None in Hc.
Qed.

(** [sub in s] decides [occurs sub s]. *)
Lemma contains_occurs sub s : contains sub s = true ↔ occurs sub s.
Proof.
  unfold contains. split.
  - destruct (cut sub s) as [[b a]|] eqn:Hc; [|done].
    intros _. apply cut_leftmost in Hc as [-> _]. by eexists _, _.
  - intros (b & a & Hc)%occurs_cut. by rewrite Hc.
Qed.

Lemma not_contains_occurs sub s : contains sub s = false ↔ ¬ occurs sub s.
Proof. rewrite <-contains_occurs. by destruct (contains sub s). Qed.

(** What precedes the leftmost occurrence holds none. *)
Lemma leftmost_before_free sep s before after :
  sep ≠ "" → leftmost sep s before after → ¬ occurs sep before.
Proof.
  intros Hsep [Heq Hmin] (x & y & ->).
  specialize (Hmin x (y +:+ sep +:+ after)).
  rewrite Heq, !app_assoc_s in Hmin. specialize (Hmin eq_refl).
  rewrite !length_app_s in Hmin.
  destruct sep; [done|]. cbn in Hmin. lia.
Qed.

Lemma cut_shorter sep s before after :
  sep ≠ "" → cut sep s = Some (before, after) →
  (String.length after < String.length s)%nat.
Proof.
  intros Hsep [-> _]%cut_leftmost. rewrite !length_app_s.
  destruct sep; [done|]. cbn. lia.
Qed.

Lemma split_steps_enough sep : sep ≠ "" → ∀ n m s,
  (String.length s ≤ n)%nat → (String.length s ≤ m)%nat →
  split_steps n sep s = split_steps m sep s.
Proof.
  intros Hsep. induction n as [|n IH]; intros m s Hn Hm.
  - destruct s; cbn in Hn; [|lia].
    destruct sep; [done|]. by destruct m.
  - destruct m as [|m].
    + destruct s; cbn in Hm; [|lia]. by destruct sep.
    + cbn. destruct (cut sep s) as [[b a]|] eqn:Hc; [|done].
      apply cut_shorter in Hc; [|done]. f_equal. apply IH; lia.
Qed.

(** The equation of [split]. *)
Lemma split_unfold sep s :
  sep ≠ "" →
  split sep s = match cut sep s with
                | None => [s]
                | Some (before, after) => before :: split sep after
                end.
Proof.
  intros Hsep. unfold split. destruct s as [|c s].
  - by destruct sep.
  - cbn [String.length split_steps].
    destruct (cut sep (String c s)) as [[b a]|] eqn:Hc; [|done].
    apply cut_shorter in Hc; [|done]. cbn in Hc.
    f_equal. apply split_steps_enough; [done|lia|lia].
Qed.

(** The first piece of a split: it holds no separator, and it is the
    whole text or is followed by a separator. *)
Lemma split_first sep s :
  sep ≠ "" →
  ∃ piece, split sep s !! 0%nat = Some piece ∧ ¬ occurs sep piece ∧
           (s = piece ∨ ∃ tail, s = piece +:+ sep +:+ tail).
Proof.
  intros Hsep. rewrite split_unfold by done.
  destruct (cut sep s) as [[b a]|] eqn:Hc.
  - exists b. split; [done|]. apply cut_leftmost in Hc.
    split; [by eapply leftmost_before_free|].
    right. exists a. apply Hc.
  - exists s. split; [done|]. split; [by apply cut_None|by left].
Qed.

(** The second piece of a split of a text that holds the separator: it
    starts right after the leftmost separator. *)
Lemma split_second sep s :
  sep ≠ "" → occurs sep s →
  ∃ before after piece,
    leftmost sep s before after ∧
    split sep s !! 1%nat = Some piece ∧ ¬ occurs sep piece ∧
    (after = piece ∨ ∃ tail, after = piece +:+ sep +:+ tail).
Proof.
  intros Hsep (b & a & Hc)%occurs_cut.
  rewrite split_unfold, Hc by done.
  destruct (split_first sep a Hsep) as (piece & Hp & Hfree & Hrest).
  exists b, a, piece. split; [by apply cut_leftmost|]. done.
Qed.
End text_facts.

(** ** The analysis *)

Section extraction_facts.
Import Py Analysis.

Lemma fence_nonempty : fence ≠ "".
Proof. done. Qed.

Lemma json_fence_nonempty : json_fence ≠ "".
Proof. done. Qed.

(** A block closed by the opening mark of a JSON block is closed by a
    fence. *)
Lemma json_fence_starts_with_fence (a tail : string) :
  a +:+ json_fence +:+ tail = a +:+ fence +:+ ("json" +:+ tail).
Proof. done. Qed.

(** What is cut after an opening mark [opening] is the contents of the
    block it opens. *)
Lemma second_then_first_is_block opening text :
  opening = fence ∨ opening = json_fence →
  occurs opening text →
  ∃ before after contents,
    leftmost opening text before after ∧
    (piece ← index (split opening text) 1; index (split fence piece) 0)
      = Return contents ∧
    block_contents after contents.
Proof.
  intros Hopening Hocc.
  assert (opening ≠ "") as Hne by (by destruct Hopening as [-> | ->]).
  destruct (split_second opening text Hne Hocc)
    as (before & after & piece & Hleft & Hpiece & _ & Hafter).
  destruct (split_first fence piece fence_nonempty)
    as (contents & Hcontents & Hfree & Hrest).
  exists before, after, contents. split; [done|].
  unfold index. rewrite Hpiece. cbn. rewrite Hcontents.
  split; [done|]. split; [done|].
  destruct Hafter as [-> | [tail ->]].
  - destruct Hrest as [-> | [tail' ->]]; [by left|]. right. by exists tail'.
  - right. destruct Hrest as [-> | [tail' ->]].
    + destruct Hopening as [-> | ->]; [by exists tail|].
      exists ("json" +:+ tail). apply json_fence_starts_with_fence.
    + exists (tail' +:+ opening +:+ tail). by rewrite !app_assoc_s.
Qed.

Lemma extract_json_returns text : ∃ json_str, extract_json text = Return json_str.
Proof.
  unfold extract_json.
  destruct (contains json_fence text) eqn:Hj.
  - apply contains_occurs in Hj.
    destruct (second_then_first_is_block json_fence text (or_intror eq_refl) Hj)
      as (before & after & contents & _ & -> & _).
    by exists contents.
  - destruct (contains fence text) eqn:Hf; [|by eauto].
    apply contains_occurs in Hf.
    destruct (second_then_first_is_block fence text (or_introl eq_refl) Hf)
      as (before & after & contents & _ & -> & _).
    by exists contents.
Qed.
End extraction_facts.




(** C3, as the code has it.  The analysis always returns.  Without a
    configured key it is the mock analysis; with one, the mock analysis
    whenever the model call raises or the parser raises, and otherwise
    the parsed value as it is, whatever its shape.  The mock analysis
    has a summary naming the sector, exactly five trend texts, exactly two
    opportunities (medium risk over the medium term, low risk over the
    long term) and exactly four risk texts. *)
Theorem analysis_is_mock_on_failure_else_parsed_value
    (generate_content : string → result exn string)
    (json_loads : string → result exn pyval) (json_dumps : pyval → string)
    (cfg : Settings) (sector : string) (market_data : list Models.MarketData) :
  (∃ analysis,
     Analysis.analyze_with_gemini generate_content json_loads json_dumps
       cfg sector market_data = Return analysis) ∧
  (Analysis.initialize_gemini cfg = false →
   Analysis.analyze_with_gemini generate_content json_loads json_dumps
     cfg sector market_data
   = Return (Analysis.generate_mock_analysis sector market_data)) ∧
  (Analysis.initialize_gemini cfg = true →
   ∀ e,
     generate_content
       (Analysis.prompt sector
          (json_dumps (PList (Models.MarketData_dict <$> market_data))))
       = Raise e →
     Analysis.analyze_with_gemini generate_content json_loads json_dumps
       cfg sector market_data
     = Return (Analysis.generate_mock_analysis sector market_data)) ∧
  (Analysis.initialize_gemini cfg = true →
   ∀ text,
     generate_content
       (Analysis.prompt sector
          (json_dumps (PList (Models.MarketData_dict <$> market_data))))
       = Return text →
     ∃ json_str,
       Analysis.extract_json text = Return json_str ∧
       (∀ e, json_loads json_str = Raise e →
             Analysis.analyze_with_gemini generate_content json_loads json_dumps
               cfg sector market_data
             = Return (Analysis.generate_mock_analysis sector market_data)) ∧
       (∀ parsed, json_loads json_str = Return parsed →
                  Analysis.analyze_with_gemini generate_content json_loads
                    json_dumps cfg sector market_data
                  = Return parsed)) ∧
  (∃ summary_rest trends first second risks,
     Analysis.generate_mock_analysis sector market_data =
       PDict [("summary", PStr ("The " +:+ sector +:+ summary_rest));
              ("market_trends", PList (PStr <$> trends));
              ("trade_opportunities", PList [PDict first; PDict second]);
              ("risks", PList (PStr <$> risks))] ∧
     length trends = 5%nat ∧
     length risks = 4%nat ∧
     Py.dict_get first "risk_level" PNone = PStr "medium" ∧
     Py.dict_get first "time_horizon" PNone = PStr "medium-term" ∧
     Py.dict_get second "risk_level" PNone = PStr "low" ∧
     Py.dict_get second "time_horizon" PNone = PStr "long-term").
Proof.
  unfold Analysis.analyze_with_gemini.
  split; [|split; [|split; [|split]]].
  - destruct (Analysis.initialize_gemini cfg); cbn -[Analysis.extract_json];
      [|by eexists].
    destruct (generate_content _) as [text|e];
      cbn -[Analysis.extract_json]; [|by eexists].
    destruct (extract_json_returns text) as [json_str ->]. cbn.
    destruct (json_loads json_str); cbn; by eexists.
  - by intros ->.
  - intros -> e ->. done.
  - intros -> text ->. destruct (extract_json_returns text) as [json_str Hjson].
    exists json_str. split; [done|].
    cbn -[Analysis.extract_json]. rewrite Hjson. cbn.
    split; [by intros e ->|by intros parsed ->].
  - eexists _, [_; _; _; _; _], _, _, [_; _; _; _]. by repeat split.
Qed.

(** With a key configured, an answer that parses is returned as parsed
    even when it has none of the fields of an analysis. *)
Lemma analysis_of_any_shape_is_returned_unchecked :
  Analysis.analyze_with_gemini
    (λ _, Return "{}")
    (λ json_str, if String.eqb json_str "{}" then Return (PDict [])
                 else Raise JSONDecodeError)
    (λ _, "[]")
    (settings_with_key "k") "technology" []
    = Return (PDict []) ∧
  Analysis.generate_mock_analysis "technology" [] ≠ PDict [].
Proof. split; [reflexivity|discriminate]. Qed.

(** ** The report *)

Section report_facts.
Import Py Models Analysis.
Context (py_str : pyval → string) (U : Py.Unicode).

(** A loop whose body only appends to the text appends to the text. *)
Lemma for_each_appends {A} (step : string → A → result exn string) (xs : list A) :
  Forall (λ x, ∀ m, ∃ t, step m x = Return (m +:+ t)) xs →
  ∀ m, ∃ t, for_each step xs m = Return (m +:+ t).
Proof.
  induction 1 as [|x xs Hx _ IH]; intros m.
  - exists "". cbn. by rewrite app_nil_r_s.
  - cbn. destruct (Hx m) as [t ->]. cbn.
    destruct (IH (m +:+ t)) as [t' ->].
    exists (t +:+ t'). by rewrite app_assoc_s.
Qed.

Lemma add_news_entry m data : add_news m data = Return (m +:+ news_entry data).
Proof. unfold add_news, news_entry. by rewrite !app_assoc_s. Qed.

(** The loop over the records appends one subsection per record, in
    the order of the records. *)
Lemma for_each_add_news (records : list MarketData) : ∀ m,
  for_each add_news records m = Return (m +:+ concat (news_entry <$> records)).
Proof.
  induction records as [|data records IH]; intros m.
  - cbn. by rewrite app_nil_r_s.
  - cbn [for_each]. rewrite add_news_entry, bind_Return, IH.
    cbn [fmap list_fmap concat foldr]. by rewrite app_assoc_s.
Qed.

Lemma dict_get_present (p : pyval → bool) d key default :
  p PNone = false → p (dict_get d key PNone) = true →
  dict_get d key default = dict_get d key PNone.
Proof.
  intros Hnone. induction d as [|[k v] d IH]; cbn.
  - congruence.
  - by case_decide.
Qed.

Lemma add_trend_appends trend m : ∃ t, add_trend py_str m trend = Return (m +:+ t).
Proof. by eexists. Qed.

Lemma add_risk_appends risk m : ∃ t, add_risk py_str m risk = Return (m +:+ t).
Proof. by eexists. Qed.

Lemma add_opportunity_appends i opp m :
  is_opportunity opp = true →
  ∃ t, add_opportunity py_str U m (i, opp) = Return (m +:+ t).
Proof.
  destruct opp as [| | | | |l|d]; cbn; try done.
  intros (((_ & _)%andb_prop & Hlevel)%andb_prop & _)%andb_prop.
  rewrite (dict_get_present is_str d "risk_level" (PStr "")) by done.
  destruct (dict_get d "risk_level" PNone) as [| | | |level| |]; try done.
  cbn. eexists. by rewrite !app_assoc_s.
Qed.

Lemma enumerate_opportunities opps : ∀ start,
  forallb is_opportunity opps = true →
  Forall (λ numbered, ∀ m, ∃ t, add_opportunity py_str U m numbered
                                = Return (m +:+ t))
         (enumerate opps start).
Proof.
  induction opps as [|opp opps IH]; intros start; cbn; [by constructor|].
  intros [Hopp Hopps]%andb_prop. constructor; [|by apply IH].
  intros m. by apply add_opportunity_appends.
Qed.
End report_facts.

(** *** Counting the subsections on the text *)

Section count_facts.
Import Py Models Analysis.






End count_facts.

Section uniform_facts.
Import Py Models Analysis.
Context (py_str : pyval → string) (U : Py.Unicode).



End uniform_facts.



(** ** The analyze endpoint *)

(** One step of a run of steps that may raise: a run that returned went
    through every step. *)
Ltac bind_step H :=
  match type of H with
  | (?m ≫= _) = Return _ =>
      let E := fresh "Estep" in
      destruct m eqn:E;
      [rewrite bind_Return in H | rewrite bind_Raise in H; discriminate H]
  end.

Section endpoint_facts.
Import Models Main.
Context (cfg : Settings) (out : Outside) (clock : Clock).

Lemma new_AnalysisResponse_key_news sector timestamp summary trends news opps
    risks report response :
  new_AnalysisResponse sector timestamp summary trends news opps risks report
    = Return response →
  key_news response = news.
Proof.
  unfold new_AnalysisResponse. intros H.
  repeat bind_step H. by injection H as <-.
Qed.

(** The response of a run keeps the first five fetched records. *)
Lemma run_analysis_key_news sector_lower user sessions response sessions' market_data :
  run_analysis cfg out clock sector_lower user sessions
    = Return (response, sessions') →
  Search.search_market_data (ddgs_text out)
    (unicode out) sector_lower 10 = Return market_data →
  key_news response = take 5 market_data.
Proof.
  unfold run_analysis. intros H Hfetch. rewrite Hfetch, bind_Return in H.
  repeat bind_step H.
  injection H as <- _. by eapply new_AnalysisResponse_key_news.
Qed.
End endpoint_facts.

(** C8, as the code has it.  For every requested sector whose lower-cased
    form, [sector.lower()], is not one of the allowed sectors, the endpoint
    raises the 400 exception whose message lists the allowed sectors,
    whatever the collaborators would answer, and the state (the rate
    limiter's times and the sessions) is left as it was.  The lower-cased
    form is the interpreter's: for a sector with a character beyond ASCII
    it is what the case mappings of [out] give. *)
Theorem unsupported_sector_is_rejected_before_anything_runs
    (cfg : Settings) (out : Main.Outside) (clock : Main.Clock)
    (sector : string) (request : Main.Request) (credentials : string)
    (state : Main.State) :
  Py.lower (Main.unicode out) sector ∉ allowed_sectors cfg →
  Main.analyze_sector cfg out clock sector request credentials state =
    (Raise (HTTP {|
       status_code := 400;
       detail := "Sector not supported. Allowed sectors: "
                 +:+ Py.join ", " (allowed_sectors cfg);
       headers := [] |}),
     state).
Proof.
  intros Hnot. unfold Main.analyze_sector. cbn zeta.
  by rewrite bool_decide_eq_true_2.
Qed.

Lemma unsupported_sector_is_rejected_before_anything_runs_witness :
  Main.analyze_sector settings Examples.outside Examples.clock "crypto"
    Examples.request "guest-token" Examples.fresh =
    (Raise (HTTP {|
       status_code := 400;
       detail := "Sector not supported. Allowed sectors: pharmaceuticals, technology, agriculture, automobile, banking, renewable-energy, real-estate, manufacturing, retail";
       headers := [] |}),
     Examples.fresh).
Proof.
  apply (unsupported_sector_is_rejected_before_anything_runs settings
           Examples.outside Examples.clock "crypto" Examples.request
           "guest-token" Examples.fresh).
  apply (bool_decide_unpack _). vm_compute. exact I.
Defined.

(** The sector Technology is not one of the allowed sectors as they are
    written, and the endpoint serves it: the check is recorded by the rate
    limiter and a response comes back. *)
Lemma capitalised_sector_is_served :
  bool_decide ("Technology" ∈ allowed_sectors settings) = false ∧
  ∃ response,
    Main.analyze_sector settings Examples.outside Examples.clock "Technology"
      Examples.request "guest-token" Examples.fresh =
      (Return response,
       {| Main.requests := {[ "guest_127.0.0.1" := [1000000] ]};
          Main.sessions := ∅ |}) ∧
    Models.sector response = "technology".
Proof.
  split; [reflexivity|]. eexists. split; [vm_compute; reflexivity|reflexivity].
Qed.

(** A sector that only the case mappings beyond ASCII bring into the
    allowed sectors is served as the sector they give. *)
Lemma sector_lowered_by_the_unicode_tables_is_served :
  String.length Examples.kelvin_banking = 9%nat ∧
  ∃ response,
    Main.analyze_sector settings Examples.outside_knowing_kelvin Examples.clock
      Examples.kelvin_banking Examples.request "guest-token" Examples.fresh =
      (Return response,
       {| Main.requests := {[ "guest_127.0.0.1" := [1000000] ]};
          Main.sessions := ∅ |}) ∧
    Models.sector response = "banking".
Proof.
  split; [reflexivity|]. eexists. split; [vm_compute; reflexivity|reflexivity].
Qed.

(** C9.  In every response the endpoint assembles, the key news are the
    first [min 5 (length market_data)] fetched records, in fetch order,
    so at most five. *)
Theorem key_news_are_the_first_five_fetched
    (cfg : Settings) (out : Main.Outside) (clock : Main.Clock)
    (sector : string) (request : Main.Request) (credentials : string)
    (state state' : Main.State) (response : Models.AnalysisResponse)
    (market_data : list Models.MarketData) :
  Main.analyze_sector cfg out clock sector request credentials state
    = (Return response, state') →
  Search.search_market_data (Main.ddgs_text out) (Main.unicode out)
    (Py.lower (Main.unicode out) sector) 10
    = Return market_data →
  Models.key_news response = take 5 market_data ∧
  length (Models.key_news response) = Nat.min 5 (length market_data) ∧
  (length (Models.key_news response) ≤ 5)%nat.
Proof.
  unfold Main.analyze_sector. cbn zeta. intros H Hfetch.
  case_bool_decide; [done|].
  destruct (Auth.get_current_user _ _ _) as [user|]; [|done].
  destruct (Main.client request) as [host|]; [|done].
  destruct (RateLimit.check_rate_limit _ _ _ _).1; [|done].
  cbn [Main.sessions Main.requests] in H.
  destruct (Main.run_analysis _ _ _ _ _ _) as [[response' sessions']|] eqn:Hrun;
    [|done].
  injection H as -> _.
  pose proof (run_analysis_key_news _ _ _ _ _ _ _ _ _ Hrun Hfetch) as Hnews.
  rewrite Hnews, length_take. repeat split; lia.
Qed.

Lemma key_news_are_the_first_five_fetched_witness :
  ∃ response state' market_data,
    Main.analyze_sector settings Examples.outside Examples.clock "technology"
      Examples.request "guest-token" Examples.fresh = (Return response, state') ∧
    length market_data = 6%nat ∧
    Models.key_news response = take 5 market_data.
Proof.
  eexists _, _, _. split; [vm_compute; reflexivity|].
  split; [|
    eapply (key_news_are_the_first_five_fetched settings Examples.outside
              Examples.clock "technology" Examples.request "guest-token"
              Examples.fresh);
    [vm_compute; reflexivity | vm_compute; reflexivity]].
  reflexivity.
Defined.

(** * Further properties *)

(** ** The rate limiter over a run *)

Section window_facts.
Import RateLimit Runs.
Context (cfg : Settings).

Let N := rate_limit_requests cfg.
Let W := timedelta_seconds (rate_limit_period cfg).

Lemma filter_length_mono {A} (P Q : A → Prop)
    `{!∀ x, Decision (P x)} `{!∀ x, Decision (Q x)} (l : list A) :
  (∀ x, Q x → P x) → (length (filter Q l) ≤ length (filter P l))%nat.
Proof.
  intros HQP. induction l as [|x l IH]; [done|].
  rewrite !filter_cons. destruct (decide (Q x)) as [HQ|HQ].
  - rewrite decide_True by auto. cbn. lia.
  - destruct (decide (P x)); cbn; lia.
Qed.

Lemma is_rate_limited_total_other key k now requests :
  key ≠ k → (is_rate_limited cfg key now requests).2 !!! k = requests !!! k.
Proof.
  intros Hne. by rewrite !lookup_total_alt, is_rate_limited_other.
Qed.

(** What a check leaves stored under its own key. *)
Lemma is_rate_limited_total_stored key now requests :
  (is_rate_limited cfg key now requests).2 !!! key =
    filter (λ t, now - t < W) (requests !!! key)
    ++ (if (is_rate_limited cfg key now requests).1 then [] else [now]).
Proof.
  unfold is_rate_limited; cbn zeta; fold W.
  case_bool_decide; cbn; rewrite lookup_total_insert_eq; [by rewrite app_nil_r|done].
Qed.

Lemma is_rate_limited_verdict key now requests :
  (is_rate_limited cfg key now requests).1 =
    bool_decide (N ≤ Z.of_nat (length (filter (λ t, now - t < W) (requests !!! key)))).
Proof. unfold is_rate_limited; cbn zeta; fold N W. by case_bool_decide. Qed.

(** The bound on every window goes through a run whose clock never goes
    back: [past] are the times admitted so far, of which [dropped] have
    left the stored sequence for good. *)
Lemma admitted_window key : ∀ calls requests t0 past dropped,
  0 ≤ N →
  clock_from t0 calls →
  past ≡ₚ dropped ++ requests !!! key →
  Forall (λ t, W ≤ t0 - t) dropped →
  (∀ s, Z.of_nat (length (filter (in_window W s) past)) ≤ N) →
  ∀ s, Z.of_nat (length (filter (in_window W s)
                           (past ++ admitted cfg key calls requests))) ≤ N.
Proof.
  induction calls as [|[k now] calls IH];
    intros requests t0 past dropped HN Hclock Hpast Hdropped Hbound s.
  - cbn. rewrite app_nil_r. apply Hbound.
  - destruct Hclock as [Ht0 Hclock]. cbn [admitted].
    destruct (decide (k = key)) as [->|Hne].
    + set (stored := requests !!! key) in *.
      set (kept := filter (λ t, now - t < W) stored).
      set (gone := filter (λ t, ¬ now - t < W) stored).
      assert (past ≡ₚ (dropped ++ gone) ++ kept) as Hpast'.
      { rewrite Hpast, <-(filter_app_complement (λ t, now - t < W) stored).
        fold kept gone. by rewrite <-app_assoc, (comm (++) kept gone). }
      assert (Forall (λ t, W ≤ now - t) (dropped ++ gone)) as Hdropped'.
      { apply Forall_app. split.
        - eapply Forall_impl; [exact Hdropped|]. cbn. lia.
        - apply Forall_forall. intros t [Ht _]%list_elem_of_filter.
          cbn in Ht. lia. }
      pose proof (is_rate_limited_total_stored key now requests) as Hstored.
      pose proof (is_rate_limited_verdict key now requests) as Hverdict.
      fold stored kept in Hstored, Hverdict.
      destruct (is_rate_limited cfg key now requests).1 eqn:Hv.
      * cbn [app]. rewrite app_nil_r in Hstored.
        apply (IH _ now past (dropped ++ gone)); try done.
        by rewrite Hstored.
      * rewrite app_assoc.
        apply (IH _ now (past ++ [now]) (dropped ++ gone)); try done.
        { rewrite Hstored, Hpast'. by rewrite !app_assoc. }
        intros s'. rewrite filter_app, length_app.
        destruct (decide (in_window W s' now)) as [Hin|Hout].
        -- rewrite (filter_cons_True _ now []), filter_nil by done. cbn [length].
           symmetry in Hverdict. apply bool_decide_eq_false in Hverdict.
           assert (length (filter (in_window W s') past) ≤ length kept)%nat; [|lia].
           rewrite Hpast', filter_app, length_app.
           rewrite (filter_drops_all (in_window W s') (dropped ++ gone)).
           2:{ eapply Forall_impl; [exact Hdropped'|].
               intros t Ht [Hlo Hhi]. destruct Hin as [Hin1 Hin2].
               cbn in Ht. lia. }
           cbn [length]. etrans; [apply length_filter|]. done.
        -- rewrite (filter_cons_False _ now []), filter_nil by done. cbn [length].
           specialize (Hbound s'). lia.
    + cbn [app]. apply (IH _ now past dropped); try done.
      * by rewrite is_rate_limited_total_other.
      * eapply Forall_impl; [exact Hdropped|]. cbn. lia.
Qed.
End window_facts.

(** X1.  The sliding-window guarantee.  In every run of checks whose
    clock never goes back, started from the empty state, the calls
    admitted for a key inside any trailing window of [W] seconds are at
    most [N]. *)
Theorem at_most_quota_admitted_in_any_window
    (cfg : Settings) (key : string) (calls : list (string * Z)) (t0 s : Z) :
  0 ≤ rate_limit_requests cfg →
  Runs.clock_from t0 calls →
  Z.of_nat
    (length
       (filter (Runs.in_window (RateLimit.timedelta_seconds (rate_limit_period cfg)) s)
               (Runs.admitted cfg key calls ∅)))
  ≤ rate_limit_requests cfg.
Proof.
  intros HN Hclock.
  apply (admitted_window cfg key calls ∅ t0 [] [] HN Hclock).
  - by rewrite lookup_total_empty.
  - constructor.
  - intros s'. cbn. lia.
Qed.

Lemma at_most_quota_admitted_in_any_window_witness :
  Runs.admitted settings "guest_127.0.0.1"
    (("guest_127.0.0.1",.) <$> [0; 1; 2; 3; 4; 5; 6; 7; 8; 9; 10; 11; 60000000]) ∅
    = [0; 1; 2; 3; 4; 5; 6; 7; 8; 9; 60000000] ∧
  Z.of_nat
    (length
       (filter (Runs.in_window
                  (RateLimit.timedelta_seconds (rate_limit_period settings)) 60000000)
          (Runs.admitted settings "guest_127.0.0.1"
             (("guest_127.0.0.1",.) <$>
                [0; 1; 2; 3; 4; 5; 6; 7; 8; 9; 10; 11; 60000000]) ∅)))
  ≤ rate_limit_requests settings.
Proof.
  split; [reflexivity|].
  apply (at_most_quota_admitted_in_any_window settings "guest_127.0.0.1"
           (("guest_127.0.0.1",.) <$>
              [0; 1; 2; 3; 4; 5; 6; 7; 8; 9; 10; 11; 60000000]) 0 60000000).
  - cbn. lia.
  - cbn. lia.
Defined.

(** X2.  With a positive period, a check at [now] leaves an entry for its
    key that holds only times inside the window of [now], each of them
    [now] itself or a time stored before; a refused check adds nothing:
    it leaves the earlier times still inside the window, which are at
    least [N]. *)
Theorem check_leaves_only_fresh_times
    (cfg : Settings) (key : string) (now : Z) (requests : gmap string (list Z)) :
  0 < rate_limit_period cfg →
  ∃ stored,
    (RateLimit.is_rate_limited cfg key now requests).2 !! key = Some stored ∧
    Forall (λ t, now - t < RateLimit.timedelta_seconds (rate_limit_period cfg))
           stored ∧
    Forall (λ t, t = now ∨ t ∈ requests !!! key) stored ∧
    ((RateLimit.is_rate_limited cfg key now requests).1 = true →
     stored = filter (λ t, now - t
                           < RateLimit.timedelta_seconds (rate_limit_period cfg))
                     (requests !!! key) ∧
     rate_limit_requests cfg ≤ Z.of_nat (length stored)).
Proof.
  intros HW. eexists. split; [apply is_rate_limited_stored|]. cbn zeta.
  pose proof (is_rate_limited_verdict cfg key now requests) as Hverdict.
  cbn zeta in Hverdict.
  case_bool_decide as Hfull; split_and!.
  - apply Forall_forall. by intros t [Ht _]%list_elem_of_filter.
  - apply Forall_forall. intros t [_ Ht]%list_elem_of_filter. by right.
  - done.
  - apply Forall_app. split.
    + apply Forall_forall. by intros t [Ht _]%list_elem_of_filter.
    + apply Forall_singleton. unfold RateLimit.timedelta_seconds. lia.
  - apply Forall_app. split.
    + apply Forall_forall. intros t [_ Ht]%list_elem_of_filter. by right.
    + apply Forall_singleton. by left.
  - rewrite Hverdict. done.
Qed.

Lemma check_leaves_only_fresh_times_witness :
  ∃ stored,
    (RateLimit.is_rate_limited settings "guest_127.0.0.1" 61000000
       {[ "guest_127.0.0.1" := [0; 2000000] ]}).2 !! "guest_127.0.0.1"
      = Some stored ∧
    stored = [2000000; 61000000].
Proof.
  destruct (check_leaves_only_fresh_times settings "guest_127.0.0.1" 61000000
              {[ "guest_127.0.0.1" := [0; 2000000] ]}) as (stored & Hstored & _).
  - cbn. lia.
  - exists stored. split; [exact Hstored|].
    apply (inj Some). rewrite <-Hstored. reflexivity.
Defined.

(** ** The fetch, record by record *)

Section record_facts.
Import Py Models Search.

Lemma dict_get_str d key default :
  Forall (λ kv : string * pyval, is_str kv.2 = true) d →
  ∃ s, dict_get d key (PStr default) = PStr s ∧
       (dict_get d key PNone = PNone → s = default) ∧
       (dict_get d key PNone ≠ PNone → dict_get d key PNone = PStr s).
Proof.
  induction 1 as [|[k v] d Hv _ IH]; cbn.
  - exists default. by split_and!.
  - case_decide; [|done]. cbn in Hv. destruct v; try done.
    eexists. by split_and!.
Qed.

(** The entries a loop appends are the conversions of its items, in the
    order of the items. *)
Lemma for_append_Forall2 {E A B} (f : A → result E B) (xs : list A) : ∀ acc out,
  for_append f xs acc = Return out →
  ∃ ys, out = acc ++ ys ∧ Forall2 (λ x y, f x = Return y) xs ys.
Proof.
  induction xs as [|x xs IH]; intros acc out.
  - cbn. intros [= <-]. exists []. by rewrite app_nil_r.
  - unfold for_append in *. cbn. destruct (f x) as [y|e] eqn:Hx; cbn; [|done].
    intros (ys & -> & Hys)%IH. exists (y :: ys).
    split; [by rewrite <-app_assoc|by constructor].
Qed.
End record_facts.

(** X3.  A search result whose values are all texts converts to a record:
    each field is the text under its key, and a key that is missing
    gives the empty text for the title, the snippet and the URL, Unknown
    for the source and Recent for the date. *)
Theorem text_result_converts_with_defaults (d : list (string * pyval)) :
  Forall (λ kv : string * pyval, Models.is_str kv.2 = true) d →
  ∃ record,
    Search.market_record (PDict d) = Return record ∧
    Py.dict_get d "title" (PStr "") = PStr (Models.title record) ∧
    Py.dict_get d "source" (PStr "Unknown") = PStr (Models.source record) ∧
    Py.dict_get d "body" (PStr "") = PStr (Models.snippet record) ∧
    Py.dict_get d "date" (PStr "Recent") = PStr (Models.date record) ∧
    (∃ u, Models.url record = Some u ∧ Py.dict_get d "href" (PStr "") = PStr u).
Proof.
  intros Hd. unfold Search.market_record. cbn [Py.get].
  destruct (dict_get_str d "title" "" Hd) as (t & Ht & _).
  destruct (dict_get_str d "source" "Unknown" Hd) as (s & Hs & _).
  destruct (dict_get_str d "body" "" Hd) as (b & Hb & _).
  destruct (dict_get_str d "date" "Recent" Hd) as (dt & Hdt & _).
  destruct (dict_get_str d "href" "" Hd) as (u & Hu & _).
  rewrite !bind_Return, Ht, Hs, Hb, Hdt, Hu.
  eexists. split; [reflexivity|]. cbn. split_and!; try done. by exists u.
Qed.

Lemma text_result_converts_with_defaults_witness :
  Search.market_record
    (PDict [("title", PStr "Rates held"); ("body", PStr "The bank held rates.")])
  = Return {| Models.title := "Rates held"; Models.source := "Unknown";
              Models.snippet := "The bank held rates."; Models.date := "Recent";
              Models.url := Some "" |}.
Proof.
  destruct (text_result_converts_with_defaults
              [("title", PStr "Rates held"); ("body", PStr "The bank held rates.")])
    as (record & -> & Ht & Hs & Hb & Hd & u & Hu & Hhref).
  - repeat constructor.
  - destruct record as [t s b d' u']. cbn in *.
    injection Ht as <-. injection Hs as <-. injection Hb as <-.
    injection Hd as <-. subst u'. injection Hhref as <-. reflexivity.
Defined.

(** X4.  When the search returns and every result converts, the fetch
    returns the conversions of the results, one for one and in the
    provider's order; [max_results] is handed to the provider and is not
    applied to what comes back. *)
Theorem fetch_keeps_the_providers_order
    (U : Py.Unicode) (ddgs_text : string → Z → result exn (list pyval))
    (sector : string) (max_results : Z) (results : list pyval) :
  ddgs_text (Search.search_query sector) max_results = Return results →
  Forall (λ item, ∃ record, Search.market_record item = Return record) results →
  ∃ market_data,
    Search.search_market_data ddgs_text U sector max_results = Return market_data ∧
    Forall2 (λ item record, Search.market_record item = Return record)
            results market_data.
Proof.
  intros Hsearch Hgood. unfold Search.search_market_data. rewrite Hsearch.
  rewrite bind_Return.
  destruct (for_append_all_return _ _ Hgood []) as [out Hout].
  rewrite Hout. cbn. exists out. split; [done|].
  apply for_append_Forall2 in Hout as (ys & -> & Hys). done.
Qed.

Lemma fetch_keeps_the_providers_order_witness :
  ∃ market_data,
    Search.search_market_data (λ _ _, Return Examples.six_results) Py.ascii_only
      "banking" 3
      = Return market_data ∧
    Models.title <$> market_data =
      ["Headline 1"; "Headline 2"; "Headline 3";
       "Headline 4"; "Headline 5"; "Headline 6"].
Proof.
  destruct (fetch_keeps_the_providers_order Py.ascii_only
              (λ _ _, Return Examples.six_results)
              "banking" 3 Examples.six_results) as (market_data & Hfetch & _).
  - reflexivity.
  - repeat (apply Forall_cons; split; [by eexists|]). apply Forall_nil_2.
  - exists market_data. split; [exact Hfetch|].
    assert (Return market_data
            = Search.search_market_data (λ _ _, Return Examples.six_results)
                Py.ascii_only "banking" 3) as Heq by (symmetry; exact Hfetch).
    vm_compute in Heq. injection Heq as ->. reflexivity.
Defined.

(** ** Fenced payloads *)

Section fence_facts.
Import Py Analysis Text.

(** Before the leftmost mark that starts with a backtick, a text without
    backticks is passed over. *)
Lemma cut_after_free mark b s :
  backtick_free b = true →
  cut (String "`" mark) (b +:+ s) =
    match cut (String "`" mark) s with
    | Some (x, y) => Some (b +:+ x, y)
    | None => None
    end.
Proof.
  induction b as [|c b IH]; intros Hfree.
  - rewrite app_nil_l_s. by destruct (cut _ s) as [[x y]|].
  - cbn in Hfree. apply andb_prop in Hfree as [Hc Hb].
    rewrite app_cons_s. cbn [cut drop_prefix].
    destruct (decide ("`"%char = c)) as [<-|_]; [done|].
    rewrite (IH Hb). by destruct (cut _ s) as [[x y]|].
Qed.

Lemma cut_fence_after_free b s :
  backtick_free b = true →
  cut fence (b +:+ s) =
    match cut fence s with
    | Some (x, y) => Some (b +:+ x, y)
    | None => None
    end.
Proof. apply cut_after_free. Qed.

Lemma cut_json_fence_after_free b s :
  backtick_free b = true →
  cut json_fence (b +:+ s) =
    match cut json_fence s with
    | Some (x, y) => Some (b +:+ x, y)
    | None => None
    end.
Proof. apply cut_after_free. Qed.

Lemma cut_free mark s : backtick_free s = true → cut (String "`" mark) s = None.
Proof.
  intros Hfree. rewrite <-(app_nil_r_s s), cut_after_free by done.
  reflexivity.
Qed.

Lemma cut_at_mark mark rest : cut mark (mark +:+ rest) = Some ("", rest).
Proof.
  destruct (mark +:+ rest) eqn:Heq; cbn [cut];
    rewrite <-Heq, (proj2 (drop_prefix_Some mark _ rest) eq_refl); done.
Qed.

Lemma index_first {A} (x : A) (l : list A) : index (x :: l) 0 = Return x.
Proof. reflexivity. Qed.

Lemma index_second {A} (x : A) (l : list A) : index (x :: l) 1 = index l 0.
Proof. reflexivity. Qed.

(** A payload without backticks, after its opening mark and before a
    fence, is the first piece of what a split by the fence leaves. *)
Lemma first_piece_of_payload p rest :
  backtick_free p = true →
  split fence (p +:+ fence +:+ rest) !! 0%nat = Some p.
Proof.
  intros Hp. rewrite split_unfold by done.
  rewrite cut_fence_after_free, cut_at_mark by done. by rewrite app_nil_r_s.
Qed.

Lemma first_piece_of_free p :
  backtick_free p = true → split fence p !! 0%nat = Some p.
Proof.
  intros Hp. rewrite split_unfold by done. unfold fence. by rewrite cut_free.
Qed.

(** What precedes the leftmost JSON mark in a fence and a text that does
    not go on with a backtick: nothing, or a text that starts with the
    fence. *)
Lemma before_json_mark_after_fence post x y :
  no_backtick_ahead post →
  cut json_fence (fence +:+ post) = Some (x, y) →
  x = "" ∨ ∃ x', x = fence +:+ x'.
Proof.
  intros Hpost [Heq _]%cut_leftmost.
  destruct x as [|c1 [|c2 [|c3 x']]].
  - by left.
  - exfalso. injection Heq as <- Heq. unfold no_backtick_ahead in Hpost.
    destruct post as [|c post]; [done|]. injection Heq as -> _. by cbn in Hpost.
  - exfalso. injection Heq as <- <- Heq. unfold no_backtick_ahead in Hpost.
    destruct post as [|c post]; [done|]. injection Heq as -> _. by cbn in Hpost.
  - right. injection Heq as <- <- <- _. by exists x'.
Qed.
End fence_facts.

(** X5.  A payload without backticks that is fenced as JSON is recovered:
    whatever text without backticks stands before the opening mark, and
    whatever text follows the closing fence as long as it does not go on
    with a backtick, the text handed to the parser is the payload. *)
Theorem json_fenced_payload_is_recovered (before payload after : string) :
  Text.backtick_free before = true →
  Text.backtick_free payload = true →
  Text.no_backtick_ahead after →
  Analysis.extract_json
    (before +:+ Analysis.json_fence +:+ payload +:+ Analysis.fence +:+ after)
  = Return payload.
Proof.
  intros Hbefore Hpayload Hafter. unfold Analysis.extract_json, Py.contains.
  rewrite cut_json_fence_after_free, cut_at_mark by done.
  rewrite (split_unfold Analysis.json_fence) by done.
  rewrite cut_json_fence_after_free, cut_at_mark, index_second by done.
  rewrite (split_unfold Analysis.json_fence) by done.
  rewrite cut_json_fence_after_free by done.
  destruct (Py.cut Analysis.json_fence (Analysis.fence +:+ after))
    as [[x y]|] eqn:Hcut; rewrite index_first, bind_Return.
  - destruct (before_json_mark_after_fence after x y Hafter Hcut) as [->|[x' ->]].
    + rewrite app_nil_r_s. unfold Py.index.
      by rewrite first_piece_of_free.
    + unfold Py.index. by rewrite first_piece_of_payload.
  - unfold Py.index. by rewrite first_piece_of_payload.
Qed.

Lemma json_fenced_payload_is_recovered_witness :
  Analysis.extract_json "Here is the analysis: ```json{}``` Hope it helps."
  = Return "{}".
Proof.
  apply (json_fenced_payload_is_recovered "Here is the analysis: " "{}"
           " Hope it helps."); reflexivity.
Defined.

(** X6.  In a text that holds no JSON mark, a payload without backticks
    between the first fence and the next one is recovered, whatever
    follows. *)
Theorem plain_fenced_payload_is_recovered (before payload after : string) :
  ¬ Py.occurs Analysis.json_fence
      (before +:+ Analysis.fence +:+ payload +:+ Analysis.fence +:+ after) →
  Text.backtick_free before = true →
  Text.backtick_free payload = true →
  Analysis.extract_json
    (before +:+ Analysis.fence +:+ payload +:+ Analysis.fence +:+ after)
  = Return payload.
Proof.
  intros Hnojson Hbefore Hpayload. unfold Analysis.extract_json.
  apply not_contains_occurs in Hnojson. rewrite Hnojson.
  unfold Py.contains.
  rewrite cut_fence_after_free, cut_at_mark by done.
  rewrite (split_unfold Analysis.fence) by done.
  rewrite cut_fence_after_free, cut_at_mark, index_second by done.
  unfold Py.index. rewrite first_piece_of_payload by done.
  rewrite bind_Return. by rewrite first_piece_of_free.
Qed.

Lemma plain_fenced_payload_is_recovered_witness :
  Analysis.extract_json "Result: ```{}``` (as requested)" = Return "{}".
Proof.
  apply (plain_fenced_payload_is_recovered "Result: " "{}" " (as requested)");
    [|reflexivity|reflexivity].
  apply not_contains_occurs. reflexivity.
Defined.

(** ** The report, section by section *)

Section section_facts.
Import Py Models Analysis.
Context (py_str : pyval → string) (U : Py.Unicode).

(** A loop whose body, when it returns, has only appended to the text,
    has only appended to the text when it returns. *)
Lemma for_each_appended {A} (step : string → A → result exn string) (xs : list A) :
  (∀ m x r, step m x = Return r → ∃ t, r = m +:+ t) →
  ∀ m r, for_each step xs m = Return r → ∃ t, r = m +:+ t.
Proof.
  intros Hstep. induction xs as [|x xs IH]; intros m r.
  - cbn. intros [= <-]. exists "". by rewrite app_nil_r_s.
  - cbn [for_each]. intros H. bind_step H.
    apply Hstep in Estep as [t ->]. apply IH in H as [t' ->].
    exists (t +:+ t'). by rewrite app_assoc_s.
Qed.

Lemma add_opportunity_appended m numbered r :
  add_opportunity py_str U m numbered = Return r → ∃ t, r = m +:+ t.
Proof.
  destruct numbered as [i opp]. unfold add_opportunity. intros H.
  repeat bind_step H. injection H as <-.
  eexists. by rewrite !app_assoc_s.
Qed.
End section_facts.

(** The layout of a rendered report. *)
Lemma report_layout
    (py_str : pyval → string) (U : Py.Unicode) (timestamp sector : string)
    (analysis : pyval)
    (market_data : list Models.MarketData) (report : string) :
  Analysis.generate_markdown_report py_str U timestamp sector analysis market_data
    = Return report →
  ∃ summary trends opportunities risks,
    report =
      ("# Market Analysis Report: " +:+ Py.title U sector +:+ " Sector" +:+ Analysis.nl)
      +:+ ("**Generated:** " +:+ timestamp +:+ Analysis.nl) +:+ Analysis.nl
      +:+ ("## Executive Summary" +:+ Analysis.nl) +:+ summary
      +:+ Analysis.nl +:+ Analysis.nl
      +:+ ("## Market Trends" +:+ Analysis.nl) +:+ trends
      +:+ (Analysis.nl +:+ "## Key Market Information" +:+ Analysis.nl)
      +:+ Py.concat (Analysis.news_entry <$> take 5 market_data)
      +:+ ("## Trade Opportunities" +:+ Analysis.nl) +:+ opportunities
      +:+ ("## Potential Risks" +:+ Analysis.nl) +:+ risks
      +:+ (Analysis.nl +:+ "---" +:+ Analysis.nl)
      +:+ "*Report generated by Trade Opportunities API. This is for informational purposes only.*".
Proof.
  unfold Analysis.generate_markdown_report. intros H.
  destruct analysis as [| | | | | |d]; try done.
  cbn [Py.get] in H. rewrite bind_Return in H.
  rewrite bind_Return in H. bind_step H. bind_step H.
  rewrite for_each_add_news, bind_Return in H.
  rewrite bind_Return in H. bind_step H. bind_step H.
  rewrite bind_Return in H. bind_step H. bind_step H.
  injection H as <-.
  match goal with
  | E : for_each (Analysis.add_trend py_str) _ _ = Return _ |- _ =>
      apply for_each_appended in E as [trends ->];
        [|intros m x r [= <-]; by eexists]
  end.
  match goal with
  | E : for_each (Analysis.add_opportunity py_str U) _ _ = Return _ |- _ =>
      apply for_each_appended in E as [opportunities ->];
        [|apply add_opportunity_appended]
  end.
  match goal with
  | E : for_each (Analysis.add_risk py_str) _ _ = Return _ |- _ =>
      apply for_each_appended in E as [risks ->];
        [|intros m x r [= <-]; by eexists]
  end.
  exists (Analysis.fmt py_str (Py.dict_get d "summary" (PStr ""))),
         trends, opportunities, risks.
  by rewrite !app_assoc_s.
Qed.

(** X7.  Whatever the analysis, a report that is rendered has its
    sections in one fixed order: the heading with [sector.title()], the
    generation time, the summary, the trends, the subsections of the
    first five records, the opportunities, the risks, and last the rule
    and the notice. *)
Theorem rendered_report_has_its_sections_in_order
    (py_str : pyval → string) (U : Py.Unicode) (timestamp sector : string)
    (analysis : pyval)
    (market_data : list Models.MarketData) (report : string) :
  Analysis.generate_markdown_report py_str U timestamp sector analysis market_data
    = Return report →
  ∃ summary trends opportunities risks,
    report =
      ("# Market Analysis Report: " +:+ Py.title U sector +:+ " Sector" +:+ Analysis.nl)
      +:+ ("**Generated:** " +:+ timestamp +:+ Analysis.nl) +:+ Analysis.nl
      +:+ ("## Executive Summary" +:+ Analysis.nl) +:+ summary
      +:+ Analysis.nl +:+ Analysis.nl
      +:+ ("## Market Trends" +:+ Analysis.nl) +:+ trends
      +:+ (Analysis.nl +:+ "## Key Market Information" +:+ Analysis.nl)
      +:+ Py.concat (Analysis.news_entry <$> take 5 market_data)
      +:+ ("## Trade Opportunities" +:+ Analysis.nl) +:+ opportunities
      +:+ ("## Potential Risks" +:+ Analysis.nl) +:+ risks
      +:+ (Analysis.nl +:+ "---" +:+ Analysis.nl)
      +:+ "*Report generated by Trade Opportunities API. This is for informational purposes only.*".
Proof.
  intros Hrendered.
  destruct (report_layout py_str U timestamp sector analysis market_data report
              Hrendered) as (summary & trends & opportunities & risks & ->).
  by exists summary, trends, opportunities, risks.
Qed.

(** The report for the sector banking and six records: the heading reads
    Banking, and five subsections stand between the trends and the
    opportunities. *)
Lemma rendered_report_has_its_sections_in_order_witness :
  ∃ report,
    Analysis.generate_markdown_report (λ _, "") Py.ascii_only "2024-06-01 12:00:00"
      "banking" (Analysis.generate_mock_analysis "banking" Examples.six_records)
      Examples.six_records = Return report ∧
    ∃ summary trends opportunities risks,
      report =
        ("# Market Analysis Report: Banking Sector" +:+ Analysis.nl)
        +:+ ("**Generated:** 2024-06-01 12:00:00" +:+ Analysis.nl)
        +:+ Analysis.nl
        +:+ ("## Executive Summary" +:+ Analysis.nl) +:+ summary
        +:+ Analysis.nl +:+ Analysis.nl
        +:+ ("## Market Trends" +:+ Analysis.nl) +:+ trends
        +:+ (Analysis.nl +:+ "## Key Market Information" +:+ Analysis.nl)
        +:+ ("### Headline 1" +:+ Analysis.nl
            +:+ "**Source:** Unknown | **Date:** Recent" +:+ Analysis.nl
            +:+ "Markets moved." +:+ Analysis.nl +:+ Analysis.nl
            +:+ "### Headline 2" +:+ Analysis.nl
            +:+ "**Source:** Unknown | **Date:** Recent" +:+ Analysis.nl
            +:+ "Markets moved." +:+ Analysis.nl +:+ Analysis.nl
            +:+ "### Headline 3" +:+ Analysis.nl
            +:+ "**Source:** Unknown | **Date:** Recent" +:+ Analysis.nl
            +:+ "Markets moved." +:+ Analysis.nl +:+ Analysis.nl
            +:+ "### Headline 4" +:+ Analysis.nl
            +:+ "**Source:** Unknown | **Date:** Recent" +:+ Analysis.nl
            +:+ "Markets moved." +:+ Analysis.nl +:+ Analysis.nl
            +:+ "### Headline 5" +:+ Analysis.nl
            +:+ "**Source:** Unknown | **Date:** Recent" +:+ Analysis.nl
            +:+ "Markets moved." +:+ Analysis.nl +:+ Analysis.nl)
        +:+ ("## Trade Opportunities" +:+ Analysis.nl) +:+ opportunities
        +:+ ("## Potential Risks" +:+ Analysis.nl) +:+ risks
        +:+ (Analysis.nl +:+ "---" +:+ Analysis.nl)
        +:+ "*Report generated by Trade Opportunities API. This is for informational purposes only.*".
Proof.
  eexists. split; [reflexivity|].
  apply (rendered_report_has_its_sections_in_order (λ _, "") Py.ascii_only
           "2024-06-01 12:00:00" "banking"
           (Analysis.generate_mock_analysis "banking" Examples.six_records)
           Examples.six_records).
  reflexivity.
Defined.

(** ** The endpoint, outcome by outcome *)

Section served_facts.
Import Py Models Analysis Main.

Lemma search_market_data_returns ddgs U sector max_results :
  ∃ market_data,
    Search.search_market_data ddgs U sector max_results = Return market_data.
Proof.
  unfold Search.search_market_data.
  destruct (ddgs _ _) as [results|e]; [|by eexists].
  rewrite bind_Return. destruct (for_append _ _ _); by eexists.
Qed.

Lemma mock_is_analysis_result sector market_data :
  is_analysis_result (generate_mock_analysis sector market_data) = true.
Proof. reflexivity. Qed.

(** The report of an analysis of the documented shape is rendered, and
    names the opportunities section. *)
Lemma shaped_report_returns py_str U timestamp sector d market_data :
  is_analysis_result (PDict d) = true →
  ∃ before after,
    generate_markdown_report py_str U timestamp sector (PDict d) market_data
    = Return (before +:+ ("## Trade Opportunities" +:+ nl) +:+ after).
Proof.
  intros Hshape. cbn in Hshape.
  apply andb_prop in Hshape as [[[Hsummary Htrends]%andb_prop Hopps]%andb_prop Hrisks].
  unfold generate_markdown_report. cbn [Py.get mbind result_bind].
  rewrite (dict_get_present is_str_list d "market_trends" (PList [])) by done.
  rewrite (dict_get_present is_opportunity_list d "trade_opportunities"
             (PList [])) by done.
  rewrite (dict_get_present is_str_list d "risks" (PList [])) by done.
  destruct (dict_get d "market_trends" PNone) as [| | | | |trends|]; try done.
  destruct (dict_get d "trade_opportunities" PNone) as [| | | | |opps|]; try done.
  destruct (dict_get d "risks" PNone) as [| | | | |risks|]; try done.
  cbn [Py.iter mbind result_bind].
  pose proof (for_each_appends (add_trend py_str) trends
                (list.Forall_true _ _ (add_trend_appends py_str))) as Htrend.
  pose proof (for_each_appends (add_opportunity py_str U) (enumerate opps 1)
                (enumerate_opportunities py_str U opps 1 Hopps)) as Hopp.
  pose proof (for_each_appends (add_risk py_str) risks
                (list.Forall_true _ _ (add_risk_appends py_str))) as Hrisk.
  match goal with
  | |- context [for_each (add_trend py_str) _ ?md] => destruct (Htrend md) as [t1 ->]
  end.
  rewrite bind_Return, for_each_add_news, bind_Return.
  match goal with
  | |- context [for_each (add_opportunity py_str U) _ ?md] =>
      destruct (Hopp md) as [t2 ->]
  end.
  rewrite bind_Return.
  match goal with
  | |- context [for_each (add_risk py_str) _ ?md] => destruct (Hrisk md) as [t3 ->]
  end.
  rewrite bind_Return.
  match goal with
  | |- context [((?b +:+ ("## Trade Opportunities" +:+ nl)) +:+ t2)] =>
      exists b,
        (t2 +:+ ("## Potential Risks" +:+ nl) +:+ t3 +:+ (nl +:+ "---" +:+ nl)
         +:+ "*Report generated by Trade Opportunities API. This is for informational purposes only.*")
  end.
  by rewrite !app_assoc_s.
Qed.

Lemma validate_list_str_shaped v :
  is_str_list v = true → ∃ l, validate_list_str v = Return l ∧ v = PList (PStr <$> l).
Proof.
  destruct v as [| | | | |l|]; try done. cbn.
  assert (∀ acc, forallb is_str l = true →
            ∃ out, for_append validate_str l acc = Return (acc ++ out) ∧
                   l = PStr <$> out) as Hloop.
  { induction l as [|v l IH]; intros acc; cbn.
    - intros _. exists []. by rewrite app_nil_r.
    - intros [Hv Hl]%andb_prop. destruct v as [| | | |s| |]; try done.
      unfold for_append in *. cbn. destruct (IH (acc ++ [s]) Hl) as (out & -> & ->).
      exists (s :: out). by rewrite <-app_assoc. }
  intros Hl. destruct (Hloop [] Hl) as (out & -> & ->). by exists out.
Qed.

Lemma new_TradeOpportunity_shaped v :
  is_opportunity v = true →
  ∃ t, new_TradeOpportunity v = Return t ∧
       v = PDict (match v with PDict d => d | _ => [] end) ∧
       Py.get v "opportunity" PNone = Return (PStr (opportunity t)) ∧
       Py.get v "reasoning" PNone = Return (PStr (reasoning t)) ∧
       Py.get v "risk_level" PNone = Return (PStr (risk_level t)) ∧
       Py.get v "time_horizon" PNone = Return (PStr (time_horizon t)).
Proof.
  destruct v as [| | | | | |d]; try done. cbn.
  intros [[[Ho Hr]%andb_prop Hl]%andb_prop Hh]%andb_prop.
  unfold required.
  destruct (dict_get d "opportunity" PNone) as [| | | |o| |]; try done.
  destruct (dict_get d "reasoning" PNone) as [| | | |r| |]; try done.
  destruct (dict_get d "risk_level" PNone) as [| | | |l| |]; try done.
  destruct (dict_get d "time_horizon" PNone) as [| | | |h| |]; try done.
  cbn. eexists. by split_and!.
Qed.

Lemma new_TradeOpportunities_shaped opps :
  forallb is_opportunity opps = true →
  ∃ ts, for_append new_TradeOpportunity opps [] = Return ts ∧
        Forall2 (λ v t, new_TradeOpportunity v = Return t) opps ts.
Proof.
  intros Hopps.
  destruct (for_append_all_return new_TradeOpportunity opps) with (acc := @nil TradeOpportunity)
    as [ts Hts].
  - apply Forall_forall. intros v Hv.
    destruct (new_TradeOpportunity_shaped v) as (t & Ht & _); [|by eauto].
    rewrite forallb_forall in Hopps. apply Hopps. by apply list_elem_of_In.
  - exists ts. split; [done|].
    apply for_append_Forall2 in Hts as (ys & -> & Hys). done.
Qed.

(** From an analysis of the documented shape the response is assembled,
    field by field. *)
Lemma run_analysis_shaped cfg out clock sector_lower user sessions market_data d :
  Search.search_market_data (ddgs_text out)
    (unicode out) sector_lower 10 = Return market_data →
  analyze_with_gemini (generate_content out) (json_loads out) (json_dumps out)
    cfg sector_lower market_data = Return (PDict d) →
  is_analysis_result (PDict d) = true →
  ∃ response opps,
    run_analysis cfg out clock sector_lower user sessions
      = Return (response, Endpoints.sessions_after clock user sessions) ∧
    Models.sector response = sector_lower ∧
    timestamp response = response_time clock ∧
    dict_get d "summary" PNone = PStr (summary response) ∧
    dict_get d "market_trends" PNone = PList (PStr <$> market_trends response) ∧
    dict_get d "trade_opportunities" PNone = PList opps ∧
    Forall2 (λ v t, new_TradeOpportunity v = Return t) opps
            (trade_opportunities response) ∧
    dict_get d "risks" PNone = PList (PStr <$> risks response) ∧
    key_news response = take 5 market_data ∧
    generate_markdown_report (py_str out) (unicode out) (report_time clock) sector_lower
      (PDict d) market_data = Return (markdown_report response) ∧
    occurs "## Trade Opportunities" (markdown_report response).
Proof.
  intros Hfetch Hanalysis Hshape.
  destruct (shaped_report_returns (py_str out) (unicode out) (report_time clock)
              sector_lower d
              market_data Hshape) as (before & after & Hreport).
  unfold run_analysis. rewrite Hfetch, bind_Return, Hanalysis, bind_Return.
  rewrite Hreport, bind_Return.
  cbn in Hshape.
  apply andb_prop in Hshape as [[[Hsummary Htrends]%andb_prop Hopps]%andb_prop Hrisks].
  cbn [Py.get mbind result_bind].
  rewrite (dict_get_present is_str d "summary" (PStr "")) by done.
  rewrite (dict_get_present is_str_list d "market_trends" (PList [])) by done.
  rewrite (dict_get_present is_opportunity_list d "trade_opportunities"
             (PList [])) by done.
  rewrite (dict_get_present is_str_list d "risks" (PList [])) by done.
  destruct (dict_get d "summary" PNone) as [| | | |s| |]; try done.
  destruct (validate_list_str_shaped _ Htrends) as (trends & Htr & Htrends_eq).
  destruct (validate_list_str_shaped _ Hrisks) as (risks & Hri & Hrisks_eq).
  destruct (dict_get d "trade_opportunities" PNone) as [| | | | |opps|]; try done.
  destruct (new_TradeOpportunities_shaped opps Hopps) as (ts & Hts & Hall).
  cbn [Py.iter mbind result_bind]. rewrite Hts. cbn [mbind result_bind].
  unfold new_AnalysisResponse. cbn [validate_str mbind result_bind].
  rewrite Htr. cbn [mbind result_bind]. rewrite Hri. cbn [mbind result_bind].
  unfold Endpoints.sessions_after.
  eexists _, opps. split; [reflexivity|]. cbn.
  split_and!; try done.
  exists before, (nl +:+ after). by rewrite app_assoc_s.
Qed.
End served_facts.

Section outcome_facts.
Import Py Models Analysis Main.
Context (cfg : Settings) (out : Outside) (clock : Clock).

(** The state once the rate limiter has been consulted for [user] at
    [host]. *)
Let checked (user : User) (host : string) (state : State) : State :=
  {| requests :=
       (RateLimit.is_rate_limited cfg (username user +:+ "_" +:+ host)
          (limiter_now clock) (requests state)).2;
     sessions := sessions state |}.

(** An allowed, authenticated request that the rate limiter admits goes
    into the pipeline: it returns what the pipeline returns, and answers
    500 when the pipeline raises. *)
Lemma analyze_sector_admitted sector request credentials state user host :
  lower (unicode out) sector ∈ allowed_sectors cfg →
  Auth.get_current_user (jwt_decode out) cfg credentials = Return user →
  client request = Some host →
  (RateLimit.is_rate_limited cfg (username user +:+ "_" +:+ host)
     (limiter_now clock) (requests state)).1 = false →
  analyze_sector cfg out clock sector request credentials state =
    match run_analysis cfg out clock (lower (unicode out) sector) user (sessions state) with
    | Return (response, sessions') =>
        (Return response,
         {| requests := requests (checked user host state); sessions := sessions' |})
    | Raise e =>
        (Raise (HTTP {| status_code := 500;
                        detail := "Analysis failed: " +:+ exn_str out e;
                        headers := [] |}),
         checked user host state)
    end.
Proof.
  intros Hallowed Hauth Hclient Hverdict. unfold analyze_sector. cbn zeta.
  rewrite bool_decide_eq_false_2 by auto. rewrite Hauth, Hclient.
  unfold RateLimit.check_rate_limit.
  destruct (RateLimit.is_rate_limited _ _ _ _) as [verdict requests'] eqn:Hcheck.
  cbn in Hverdict. subst verdict. cbn [fst snd sessions].
  unfold checked. rewrite Hcheck. cbn [fst snd requests].
  by destruct (run_analysis _ _ _ _ _ _) as [[response sessions']|e].
Qed.

Lemma analyze_sector_refused sector request credentials state user host :
  lower (unicode out) sector ∈ allowed_sectors cfg →
  Auth.get_current_user (jwt_decode out) cfg credentials = Return user →
  client request = Some host →
  (RateLimit.is_rate_limited cfg (username user +:+ "_" +:+ host)
     (limiter_now clock) (requests state)).1 = true →
  analyze_sector cfg out clock sector request credentials state =
    (Raise (HTTP {|
       status_code := 429;
       detail := "Rate limit exceeded. Try again in "
                 +:+ pretty (rate_limit_period cfg) +:+ " seconds.";
       headers := [("Retry-After", pretty (rate_limit_period cfg))] |}),
     checked user host state).
Proof.
  intros Hallowed Hauth Hclient Hverdict. unfold analyze_sector. cbn zeta.
  rewrite bool_decide_eq_false_2 by auto. rewrite Hauth, Hclient.
  unfold RateLimit.check_rate_limit, checked.
  destruct (RateLimit.is_rate_limited _ _ _ _) as [verdict requests'] eqn:Hcheck.
  cbn in Hverdict. by subst verdict.
Qed.

(** The pipeline raises AttributeError on an analysis that is not a
    dictionary. *)
Lemma run_analysis_not_dict sector_lower user sessions market_data analysis :
  Search.search_market_data (ddgs_text out)
    (unicode out) sector_lower 10 = Return market_data →
  analyze_with_gemini (generate_content out) (json_loads out) (json_dumps out)
    cfg sector_lower market_data = Return analysis →
  (∀ d, analysis ≠ PDict d) →
  run_analysis cfg out clock sector_lower user sessions = Raise AttributeError.
Proof.
  intros Hfetch Hanalysis Hnot. unfold run_analysis.
  rewrite Hfetch, bind_Return, Hanalysis, bind_Return.
  unfold generate_markdown_report.
  destruct analysis; try done. by destruct (Hnot d).
Qed.
End outcome_facts.

(** X8.  Without a configured key, every request for an allowed sector
    that is authenticated and admitted by the rate limiter is served from
    the mock analysis: the response carries the lower-cased sector, the
    mock summary naming it, five trends, two opportunities and four
    risks, the first five fetched records, and a report that holds the
    Trade Opportunities heading; the check is recorded by the rate
    limiter. *)
Theorem request_without_key_is_served_from_the_mock
    (cfg : Settings) (out : Main.Outside) (clock : Main.Clock)
    (sector : string) (request : Main.Request) (credentials : string)
    (state : Main.State) (user : Models.User) (host : string) :
  Py.lower (Main.unicode out) sector ∈ allowed_sectors cfg →
  Auth.get_current_user (Main.jwt_decode out) cfg credentials = Return user →
  Main.client request = Some host →
  (RateLimit.is_rate_limited cfg (Models.username user +:+ "_" +:+ host)
     (Main.limiter_now clock) (Main.requests state)).1 = false →
  Analysis.initialize_gemini cfg = false →
  ∃ response market_data,
    Main.analyze_sector cfg out clock sector request credentials state =
      (Return response,
       {| Main.requests :=
            (RateLimit.is_rate_limited cfg (Models.username user +:+ "_" +:+ host)
               (Main.limiter_now clock) (Main.requests state)).2;
          Main.sessions :=
            Endpoints.sessions_after clock user (Main.sessions state) |}) ∧
    Search.search_market_data (Main.ddgs_text out) (Main.unicode out)
      (Py.lower (Main.unicode out) sector) 10
      = Return market_data ∧
    Models.key_news response = take 5 market_data ∧
    Models.sector response = Py.lower (Main.unicode out) sector ∧
    Models.summary response =
      "The " +:+ Py.lower (Main.unicode out) sector +:+ " sector in India shows promising growth potential with increasing digital adoption and government support." ∧
    length (Models.market_trends response) = 5%nat ∧
    length (Models.trade_opportunities response) = 2%nat ∧
    length (Models.risks response) = 4%nat ∧
    Py.occurs "## Trade Opportunities" (Models.markdown_report response).
Proof.
  intros Hallowed Hauth Hclient Hverdict Hkey.
  destruct (search_market_data_returns (Main.ddgs_text out) (Main.unicode out)
    (Py.lower (Main.unicode out) sector) 10)
    as [market_data Hfetch].
  assert (Analysis.analyze_with_gemini (Main.generate_content out)
            (Main.json_loads out) (Main.json_dumps out) cfg
              (Py.lower (Main.unicode out) sector)
            market_data
          = Return (Analysis.generate_mock_analysis
            (Py.lower (Main.unicode out) sector) market_data))
    as Hmock.
  { unfold Analysis.analyze_with_gemini. by rewrite Hkey. }
  destruct (run_analysis_shaped cfg out clock (Py.lower (Main.unicode out) sector) user
              (Main.sessions state) market_data _ Hfetch Hmock eq_refl)
    as (response & opps & Hrun & Hsector & _ & Hsummary & Htrends & Hopps
        & Hall & Hrisks & Hnews & _ & Hreport).
  exists response, market_data.
  rewrite (analyze_sector_admitted cfg out clock sector request credentials
             state user host) by done.
  rewrite Hrun. cbn [Main.requests].
  split_and!; try done.
  - cbn in Hsummary. by injection Hsummary.
  - cbn in Htrends. injection Htrends as Htrends.
    apply (f_equal length) in Htrends. rewrite length_fmap in Htrends.
    by rewrite <-Htrends.
  - cbn in Hopps. injection Hopps as <-.
    apply Forall2_length in Hall. by rewrite <-Hall.
  - cbn in Hrisks. injection Hrisks as Hrisks.
    apply (f_equal length) in Hrisks. rewrite length_fmap in Hrisks.
    by rewrite <-Hrisks.
Qed.

Lemma request_without_key_is_served_from_the_mock_witness :
  ∃ response,
    (Main.analyze_sector settings Examples.outside Examples.clock "Technology"
       Examples.request "guest-token" Examples.fresh).1 = Return response ∧
    Models.summary response =
      "The technology sector in India shows promising growth potential with increasing digital adoption and government support." ∧
    length (Models.trade_opportunities response) = 2%nat.
Proof.
  destruct (request_without_key_is_served_from_the_mock settings Examples.outside
              Examples.clock "Technology" Examples.request "guest-token"
              Examples.fresh {| Models.username := "guest";
                                Models.disabled := Some false |} "127.0.0.1")
    as (response & market_data & Hserved & _ & _ & _ & Hsummary & _ & Hopps & _).
  - apply (bool_decide_unpack _). vm_compute. exact I.
  - reflexivity.
  - reflexivity.
  - reflexivity.
  - reflexivity.
  - exists response. rewrite Hserved. split; [reflexivity|].
    split; [exact Hsummary|exact Hopps].
Defined.

(** X9.  With a key configured, when the parsed answer is an analysis of
    the documented shape, an allowed, authenticated and admitted request
    gets a response that carries the fields of the parsed answer as they
    are: its summary, its trends, its opportunities one for one, its
    risks, with the report rendered from it. *)
Theorem shaped_answer_is_served_as_parsed
    (cfg : Settings) (out : Main.Outside) (clock : Main.Clock)
    (sector : string) (request : Main.Request) (credentials : string)
    (state : Main.State) (user : Models.User) (host : string)
    (market_data : list Models.MarketData) (d : list (string * pyval)) :
  Py.lower (Main.unicode out) sector ∈ allowed_sectors cfg →
  Auth.get_current_user (Main.jwt_decode out) cfg credentials = Return user →
  Main.client request = Some host →
  (RateLimit.is_rate_limited cfg (Models.username user +:+ "_" +:+ host)
     (Main.limiter_now clock) (Main.requests state)).1 = false →
  Search.search_market_data (Main.ddgs_text out) (Main.unicode out)
    (Py.lower (Main.unicode out) sector) 10
    = Return market_data →
  Analysis.analyze_with_gemini (Main.generate_content out) (Main.json_loads out)
    (Main.json_dumps out) cfg
      (Py.lower (Main.unicode out) sector) market_data = Return (PDict d) →
  Models.is_analysis_result (PDict d) = true →
  ∃ response opps,
    (Main.analyze_sector cfg out clock sector request credentials state).1
      = Return response ∧
    Py.dict_get d "summary" PNone = PStr (Models.summary response) ∧
    Py.dict_get d "market_trends" PNone
      = PList (PStr <$> Models.market_trends response) ∧
    Py.dict_get d "trade_opportunities" PNone = PList opps ∧
    Forall2 (λ v t, Models.new_TradeOpportunity v = Return t) opps
            (Models.trade_opportunities response) ∧
    Py.dict_get d "risks" PNone = PList (PStr <$> Models.risks response) ∧
    Analysis.generate_markdown_report (Main.py_str out)
      (Main.unicode out) (Main.report_time clock)
      (Py.lower (Main.unicode out) sector) (PDict d) market_data
      = Return (Models.markdown_report response).
Proof.
  intros Hallowed Hauth Hclient Hverdict Hfetch Hanalysis Hshape.
  destruct (run_analysis_shaped cfg out clock (Py.lower (Main.unicode out) sector) user
              (Main.sessions state) market_data d Hfetch Hanalysis Hshape)
    as (response & opps & Hrun & _ & _ & Hsummary & Htrends & Hopps
        & Hall & Hrisks & _ & Hreport & _).
  exists response, opps.
  rewrite (analyze_sector_admitted cfg out clock sector request credentials
             state user host) by done.
  rewrite Hrun. by split_and!.
Qed.

(** An answer with one opportunity of risk level high: the response
    carries it as it is, and the report prints the level as High. *)
Lemma shaped_answer_is_served_as_parsed_witness :
  ∃ response,
    (Main.analyze_sector (settings_with_key "k") Live.advising Examples.clock
       "banking" Examples.request "guest-token" Examples.fresh).1
      = Return response ∧
    Models.summary response = "Steady demand." ∧
    Models.market_trends response = ["Consolidation"] ∧
    Models.trade_opportunities response =
      [ {| Models.opportunity := "Buy lenders";
           Models.reasoning := "Credit is growing.";
           Models.risk_level := "high";
           Models.time_horizon := "short-term" |} ] ∧
    Models.risks response = ["Rates"] ∧
    Py.contains ("### Opportunity 1: Buy lenders" +:+ Analysis.nl
                 +:+ "- **Reasoning:** Credit is growing." +:+ Analysis.nl
                 +:+ "- **Risk Level:** High" +:+ Analysis.nl
                 +:+ "- **Time Horizon:** short-term" +:+ Analysis.nl)
      (Models.markdown_report response) = true.
Proof.
  destruct (shaped_answer_is_served_as_parsed (settings_with_key "k")
              Live.advising Examples.clock "banking" Examples.request
              "guest-token" Examples.fresh
              {| Models.username := "guest"; Models.disabled := Some false |}
              "127.0.0.1" Examples.six_records
              [("summary", PStr "Steady demand.");
               ("market_trends", PList [PStr "Consolidation"]);
               ("trade_opportunities",
                PList [PDict [("opportunity", PStr "Buy lenders");
                              ("reasoning", PStr "Credit is growing.");
                              ("risk_level", PStr "high");
                              ("time_horizon", PStr "short-term")]]);
               ("risks", PList [PStr "Rates"])])
    as (response & opps & Hserved & Hsummary & Htrends & Hopps & Hall & Hrisks
        & Hreport).
  - apply (bool_decide_unpack _). vm_compute. exact I.
  - reflexivity.
  - reflexivity.
  - reflexivity.
  - reflexivity.
  - reflexivity.
  - reflexivity.
  - exists response. split; [exact Hserved|].
    cbn in Hsummary, Htrends, Hrisks, Hopps.
    injection Hsummary as <-. injection Htrends as Htrends.
    injection Hrisks as Hrisks. injection Hopps as <-.
    destruct (Models.market_trends response) as [|t [|? ?]]; try discriminate Htrends.
    destruct (Models.risks response) as [|r [|? ?]]; try discriminate Hrisks.
    injection Htrends as <-. injection Hrisks as <-.
    apply Forall2_cons_inv_l in Hall as (t & ts & Ht & Hts & ->).
    apply Forall2_nil_inv_l in Hts as ->.
    cbn in Ht. injection Ht as <-.
    remember (Models.markdown_report response) as report eqn:Hr.
    vm_compute in Hreport. injection Hreport as <-.
    repeat split; reflexivity.
Defined.

(** X10.  With a key configured, when the parsed answer is not a
    dictionary (an array, a text, a number), an allowed, authenticated
    and admitted request is answered 500 with the text of an
    AttributeError, and the check stays recorded by the rate limiter. *)
Theorem answer_that_is_no_dictionary_gives_500
    (cfg : Settings) (out : Main.Outside) (clock : Main.Clock)
    (sector : string) (request : Main.Request) (credentials : string)
    (state : Main.State) (user : Models.User) (host : string)
    (market_data : list Models.MarketData) (analysis : pyval) :
  Py.lower (Main.unicode out) sector ∈ allowed_sectors cfg →
  Auth.get_current_user (Main.jwt_decode out) cfg credentials = Return user →
  Main.client request = Some host →
  (RateLimit.is_rate_limited cfg (Models.username user +:+ "_" +:+ host)
     (Main.limiter_now clock) (Main.requests state)).1 = false →
  Search.search_market_data (Main.ddgs_text out) (Main.unicode out)
    (Py.lower (Main.unicode out) sector) 10
    = Return market_data →
  Analysis.analyze_with_gemini (Main.generate_content out) (Main.json_loads out)
    (Main.json_dumps out) cfg
      (Py.lower (Main.unicode out) sector) market_data = Return analysis →
  (∀ d, analysis ≠ PDict d) →
  Main.analyze_sector cfg out clock sector request credentials state =
    (Raise (HTTP {|
       status_code := 500;
       detail := "Analysis failed: " +:+ Main.exn_str out AttributeError;
       headers := [] |}),
     {| Main.requests :=
          <[Models.username user +:+ "_" +:+ host :=
              filter (λ t, Main.limiter_now clock - t
                           < RateLimit.timedelta_seconds (rate_limit_period cfg))
                     (Main.requests state !!! (Models.username user +:+ "_" +:+ host))
              ++ [Main.limiter_now clock]]> (Main.requests state);
        Main.sessions := Main.sessions state |}).
Proof.
  intros Hallowed Hauth Hclient Hverdict Hfetch Hanalysis Hnot.
  rewrite (analyze_sector_admitted cfg out clock sector request credentials
             state user host) by done.
  rewrite (run_analysis_not_dict cfg out clock _ user _ market_data analysis) by done.
  do 2 f_equal.
  unfold RateLimit.is_rate_limited in *. cbn zeta in *.
  by case_bool_decide.
Qed.

Lemma answer_that_is_no_dictionary_gives_500_witness :
  Main.analyze_sector (settings_with_key "k") (Live.outside "[]") Examples.clock
    "banking" Examples.request "guest-token" Examples.fresh =
    (Raise (HTTP {|
       status_code := 500;
       detail := "Analysis failed: 'list' object has no attribute 'get'";
       headers := [] |}),
     {| Main.requests := {[ "guest_127.0.0.1" := [1000000] ]};
        Main.sessions := ∅ |}).
Proof.
  rewrite (answer_that_is_no_dictionary_gives_500 (settings_with_key "k")
             (Live.outside "[]") Examples.clock "banking" Examples.request
             "guest-token" Examples.fresh
             {| Models.username := "guest"; Models.disabled := Some false |}
             "127.0.0.1"
             (match Search.search_market_data
                      (Main.ddgs_text Examples.outside) Py.ascii_only "banking" 10 with
              | Return market_data => market_data
              | Raise _ => []
              end)
             (PList [])).
  - reflexivity.
  - apply (bool_decide_unpack _). vm_compute. exact I.
  - reflexivity.
  - reflexivity.
  - reflexivity.
  - vm_compute. reflexivity.
  - reflexivity.
  - discriminate.
Defined.

(** ** Authentication *)

Section auth_facts.
Import Py Models Auth.

Lemma get_user_known name user :
  get_user name = Some user ↔
  (name = "guest" ∨ name = "trader") ∧
  user = {| username := name; disabled := Some false |}.
Proof.
  unfold get_user, fake_users_db. split.
  - destruct (decide (name = "guest")) as [->|Hg].
    { rewrite lookup_insert_eq. intros [= <-]. auto. }
    rewrite lookup_insert_ne by done.
    destruct (decide (name = "trader")) as [->|Ht].
    { rewrite lookup_singleton_eq. intros [= <-]. auto. }
    by rewrite lookup_singleton_ne.
  - intros [[-> | ->] ->]; [by rewrite lookup_insert_eq|].
    rewrite lookup_insert_ne by done. by rewrite lookup_singleton_eq.
Qed.

(** A token is accepted only through a payload whose subject is the name
    of a known user. *)
Lemma get_current_user_accepts jwt_decode cfg token user :
  get_current_user jwt_decode cfg token = Return user →
  ∃ payload name,
    jwt_decode token (secret_key cfg) [algorithm cfg] = Return payload ∧
    Py.get payload "sub" PNone = Return (PStr name) ∧
    get_user name = Some user.
Proof.
  unfold get_current_user.
  destruct (jwt_decode _ _ _) as [payload|e]; [|by destruct e].
  rewrite bind_Return.
  destruct (Py.get payload "sub" PNone) as [sub|e] eqn:Hsub; [|by destruct e].
  rewrite bind_Return.
  destruct sub as [| | | |name| |]; try done.
  cbn [validate_optional_str]. rewrite bind_Return. cbn [mbind option_bind].
  destruct (get_user name) as [user'|] eqn:Huser; [|done].
  intros [= <-]. by exists payload, name.
Qed.
End auth_facts.

(** X11.  A token is accepted exactly when the decoder returns a payload
    whose subject is the text guest or trader; the user returned then
    carries that name and is not disabled.  An error of the decoder of
    class JWTError is turned into the 401 exception with the
    WWW-Authenticate header. *)
Theorem token_is_accepted_iff_subject_is_a_known_user
    (jwt_decode : string → string → list string → result exn pyval)
    (cfg : Settings) (token : string) (user : Models.User) :
  (Auth.get_current_user jwt_decode cfg token = Return user ↔
   ∃ payload name,
     jwt_decode token (secret_key cfg) [algorithm cfg] = Return payload ∧
     Py.get payload "sub" PNone = Return (PStr name) ∧
     (name = "guest" ∨ name = "trader") ∧
     user = {| Models.username := name; Models.disabled := Some false |}) ∧
  (jwt_decode token (secret_key cfg) [algorithm cfg] = Raise JWTError →
   Auth.get_current_user jwt_decode cfg token =
     Raise (HTTP {| status_code := 401;
                    detail := "Could not validate credentials";
                    headers := [("WWW-Authenticate", "Bearer")] |})).
Proof.
  split; [split|].
  - intros (payload & name & Hdecode & Hsub & Huser)%get_current_user_accepts.
    exists payload, name. apply get_user_known in Huser as [Hname ->]. done.
  - intros (payload & name & Hdecode & Hsub & Hname & ->).
    unfold Auth.get_current_user. rewrite Hdecode, bind_Return, Hsub, bind_Return.
    cbn [Models.validate_optional_str]. rewrite bind_Return. cbn [mbind option_bind].
    by rewrite (proj2 (get_user_known name _) (conj Hname eq_refl)).
  - intros Hdecode. unfold Auth.get_current_user. by rewrite Hdecode.
Qed.

(** X12.  A request for an allowed sector whose token names no known user
    is answered 401 before the rate limiter is consulted: nothing of the
    state changes, whatever the other collaborators would answer. *)
Theorem unknown_caller_is_refused_before_the_rate_limiter
    (cfg : Settings) (out : Main.Outside) (clock : Main.Clock)
    (sector : string) (request : Main.Request) (credentials : string)
    (state : Main.State) :
  Py.lower (Main.unicode out) sector ∈ allowed_sectors cfg →
  (∀ payload name,
     Main.jwt_decode out credentials (secret_key cfg) [algorithm cfg]
       = Return payload →
     Py.get payload "sub" PNone = Return (PStr name) →
     Auth.get_user name = None) →
  Main.analyze_sector cfg out clock sector request credentials state =
    (Raise (HTTP {| status_code := 401;
                    detail := "Invalid authentication credentials";
                    headers := [] |}),
     state).
Proof.
  intros Hallowed Hunknown. unfold Main.analyze_sector. cbn zeta.
  rewrite bool_decide_eq_false_2 by auto.
  destruct (Auth.get_current_user _ _ _) as [user|e] eqn:Hauth; [|done].
  apply get_current_user_accepts in Hauth as (payload & name & Hd & Hs & Hu).
  by rewrite (Hunknown payload name Hd Hs) in Hu.
Qed.

Lemma unknown_caller_is_refused_before_the_rate_limiter_witness :
  Main.analyze_sector settings Examples.outside Examples.clock "banking"
    Examples.request "forged-token" Examples.fresh =
    (Raise (HTTP {| status_code := 401;
                    detail := "Invalid authentication credentials";
                    headers := [] |}),
     Examples.fresh).
Proof.
  apply (unknown_caller_is_refused_before_the_rate_limiter settings
           Examples.outside Examples.clock "banking" Examples.request
           "forged-token" Examples.fresh).
  - apply (bool_decide_unpack _). vm_compute. exact I.
  - intros payload name Hdecode. discriminate Hdecode.
Defined.

(** ** What the endpoint raises and what it changes *)

(** X13.  With a period that [timedelta] can hold, whatever the other
    inputs, the endpoint returns a response, or raises an HTTP exception
    of status 400, 401, 429 or 500, or raises an AttributeError, the last
    only for a request without a client address. *)
Theorem endpoint_outcomes_are_few
    (cfg : Settings) (out : Main.Outside) (clock : Main.Clock)
    (sector : string) (request : Main.Request) (credentials : string)
    (state : Main.State) :
  RateLimit.timedelta_representable (rate_limit_period cfg) = true →
  (∃ response,
     (Main.analyze_sector cfg out clock sector request credentials state).1
       = Return response) ∨
  (∃ e,
     (Main.analyze_sector cfg out clock sector request credentials state).1
       = Raise (HTTP e) ∧
     (status_code e = 400 ∨ status_code e = 401 ∨
      status_code e = 429 ∨ status_code e = 500)) ∨
  ((Main.analyze_sector cfg out clock sector request credentials state).1
     = Raise AttributeError ∧
   Main.client request = None).
Proof.
  intros _. unfold Main.analyze_sector. cbn zeta.
  case_bool_decide; [right; left; eexists; split; [reflexivity|auto]|].
  destruct (Auth.get_current_user _ _ _) as [user|e];
    [|right; left; eexists; split; [reflexivity|auto]].
  destruct (Main.client request) as [host|]; [|by right; right].
  unfold RateLimit.check_rate_limit.
  destruct (RateLimit.is_rate_limited _ _ _ _) as [[] requests']; cbn [fst snd].
  - right; left. eexists. split; [reflexivity|]. cbn. auto.
  - destruct (Main.run_analysis _ _ _ _ _ _) as [[response sessions']|e].
    + left. by eexists.
    + right; left. eexists. split; [reflexivity|]. cbn. auto.
Qed.

(** Under the default settings the period is 60 seconds; a request of the
    user guest for the sector banking gets a response. *)
Lemma endpoint_outcomes_are_few_witness :
  RateLimit.timedelta_representable (rate_limit_period settings) = true ∧
  ∃ response,
    (Main.analyze_sector settings Examples.outside Examples.clock "banking"
       Examples.request "guest-token" Examples.fresh).1 = Return response.
Proof.
  split; [reflexivity|].
  destruct (endpoint_outcomes_are_few settings Examples.outside Examples.clock
              "banking" Examples.request "guest-token" Examples.fresh eq_refl)
    as [Hserved | [(e & Hraised & _) | [Hraised _]]].
  - exact Hserved.
  - vm_compute in Hraised. discriminate Hraised.
  - vm_compute in Hraised. discriminate Hraised.
Defined.

Section effect_facts.
Import Py Models Main.
Context (cfg : Settings) (out : Outside) (clock : Clock).

(** A run that returns leaves the sessions with the analysis noted for
    the user, and its report is the rendered one. *)
Lemma run_analysis_returned sector_lower user sessions response sessions' :
  run_analysis cfg out clock sector_lower user sessions
    = Return (response, sessions') →
  sessions' = Endpoints.sessions_after clock user sessions ∧
  ∃ analysis market_data,
    Analysis.generate_markdown_report (py_str out) (unicode out) (report_time clock)
      sector_lower analysis market_data = Return (markdown_report response).
Proof.
  unfold run_analysis. intros H. repeat bind_step H.
  injection H as <- <-. split; [done|].
  match goal with
  | E : new_AnalysisResponse _ _ _ _ _ _ _ ?report = Return ?r |- _ =>
      assert (markdown_report r = report) as ->
  end.
  { match goal with
    | E : new_AnalysisResponse _ _ _ _ _ _ _ _ = Return _ |- _ =>
        unfold new_AnalysisResponse in E; repeat bind_step E;
        by injection E as <-
    end. }
  eauto.
Qed.

Lemma sessions_after_dom user sessions :
  dom (Endpoints.sessions_after clock user sessions) = dom sessions.
Proof.
  unfold Endpoints.sessions_after.
  destruct (sessions !! username user) as [session|] eqn:Hs; [|done].
  rewrite dom_insert_L. apply elem_of_dom_2 in Hs.
  apply subseteq_union_1_L. by apply singleton_subseteq_l.
Qed.
End effect_facts.

(** X14.  The endpoint never creates or removes a session.  It leaves the
    sessions as they were whenever it raises; when it returns, the only
    change is in the caller's own entry, if there is one: the time of the
    analysis is noted and the count of analyses goes up by one (from
    zero when there was none). *)
Theorem endpoint_changes_only_the_callers_session
    (cfg : Settings) (out : Main.Outside) (clock : Main.Clock)
    (sector : string) (request : Main.Request) (credentials : string)
    (state : Main.State) :
  dom (Main.sessions
         (Main.analyze_sector cfg out clock sector request credentials state).2)
    = dom (Main.sessions state) ∧
  (∀ e,
     (Main.analyze_sector cfg out clock sector request credentials state).1
       = Raise e →
     Main.sessions
       (Main.analyze_sector cfg out clock sector request credentials state).2
     = Main.sessions state) ∧
  (∀ response user,
     (Main.analyze_sector cfg out clock sector request credentials state).1
       = Return response →
     Auth.get_current_user (Main.jwt_decode out) cfg credentials = Return user →
     (∀ name, name ≠ Models.username user →
        Main.sessions
          (Main.analyze_sector cfg out clock sector request credentials state).2
          !! name = Main.sessions state !! name) ∧
     (∀ session,
        Main.sessions state !! Models.username user = Some session →
        Main.sessions
          (Main.analyze_sector cfg out clock sector request credentials state).2
          !! Models.username user =
          Some {| Main.last_login := Main.last_login session;
                  Main.token := Main.token session;
                  Main.last_analysis := Some (Main.session_time clock);
                  Main.analysis_count :=
                    Some (default 0 (Main.analysis_count session) + 1) |}) ∧
     (Main.sessions state !! Models.username user = None →
      Main.sessions
        (Main.analyze_sector cfg out clock sector request credentials state).2
      = Main.sessions state)).
Proof.
  unfold Main.analyze_sector. cbn zeta.
  case_bool_decide; [by split_and!|].
  destruct (Auth.get_current_user _ _ _) as [user|e]; [|by split_and!].
  destruct (Main.client request) as [host|]; [|by split_and!].
  destruct (RateLimit.check_rate_limit _ _ _ _).1; [|by split_and!].
  cbn [Main.sessions Main.requests].
  destruct (Main.run_analysis _ _ _ _ _ _) as [[response sessions']|e] eqn:Hrun;
    [|by split_and!].
  apply run_analysis_returned in Hrun as [-> _]. cbn [fst snd Main.sessions].
  split_and!; [apply sessions_after_dom|done|].
  intros response' user' _ [= <-]. unfold Endpoints.sessions_after. split_and!.
  - intros name Hname.
    destruct (Main.sessions state !! Models.username user); [|done].
    by rewrite lookup_insert_ne.
  - intros session ->. by rewrite lookup_insert_eq.
  - by intros ->.
Qed.

(** X15.  The endpoint touches no entry of the rate limiter but the one
    of the caller's own key, the user name and the client address joined
    by an underscore. *)
Theorem endpoint_touches_only_the_callers_quota
    (cfg : Settings) (out : Main.Outside) (clock : Main.Clock)
    (sector : string) (request : Main.Request) (credentials : string)
    (state : Main.State) (key : string) :
  (∀ user host,
     Auth.get_current_user (Main.jwt_decode out) cfg credentials = Return user →
     Main.client request = Some host →
     key ≠ Models.username user +:+ "_" +:+ host) →
  Main.requests
    (Main.analyze_sector cfg out clock sector request credentials state).2 !! key
  = Main.requests state !! key.
Proof.
  intros Hother. unfold Main.analyze_sector. cbn zeta.
  case_bool_decide; [done|].
  destruct (Auth.get_current_user _ _ _) as [user|e]; [|done].
  destruct (Main.client request) as [host|]; [|done].
  specialize (Hother user host eq_refl eq_refl).
  assert ((RateLimit.check_rate_limit cfg (Models.username user +:+ "_" +:+ host)
             (Main.limiter_now clock) (Main.requests state)).2 !! key
          = Main.requests state !! key) as Hframe.
  { unfold RateLimit.check_rate_limit.
    pose proof (is_rate_limited_other cfg (Models.username user +:+ "_" +:+ host)
                  key (Main.limiter_now clock) (Main.requests state)) as Hirl.
    destruct (RateLimit.is_rate_limited _ _ _ _) as [[] requests'];
      cbn in *; by apply Hirl. }
  destruct (RateLimit.check_rate_limit _ _ _ _).1; [|done].
  cbn [Main.sessions Main.requests].
  by destruct (Main.run_analysis _ _ _ _ _ _) as [[response sessions']|e].
Qed.

Lemma endpoint_touches_only_the_callers_quota_witness :
  Main.requests
    (Main.analyze_sector settings Examples.outside Examples.clock "banking"
       Examples.request "guest-token"
       {| Main.requests := {[ "trader_10.0.0.7" := [5; 6; 7] ]};
          Main.sessions := ∅ |}).2 !! "trader_10.0.0.7"
  = Some [5; 6; 7].
Proof.
  rewrite (endpoint_touches_only_the_callers_quota settings Examples.outside
             Examples.clock "banking" Examples.request "guest-token"
             {| Main.requests := {[ "trader_10.0.0.7" := [5; 6; 7] ]};
                Main.sessions := ∅ |} "trader_10.0.0.7").
  - reflexivity.
  - intros user host Hauth Hclient.
    injection Hclient as <-. vm_compute in Hauth. injection Hauth as <-.
    discriminate.
Defined.

(** X16.  The keys of two authenticated callers coincide only for the
    same user at the same client address. *)
Theorem callers_share_a_key_only_when_same_user_and_host
    (name1 name2 host1 host2 : string) (user1 user2 : Models.User) :
  Auth.get_user name1 = Some user1 →
  Auth.get_user name2 = Some user2 →
  Models.username user1 +:+ "_" +:+ host1 = Models.username user2 +:+ "_" +:+ host2 →
  user1 = user2 ∧ host1 = host2.
Proof.
  intros [[-> | ->] ->]%get_user_known [[-> | ->] ->]%get_user_known; cbn;
    intros Hkey.
  - split; [done|]. by apply (inj (String.append "guest_")) in Hkey.
  - discriminate Hkey.
  - discriminate Hkey.
  - split; [done|]. by apply (inj (String.append "trader_")) in Hkey.
Qed.

Lemma callers_share_a_key_only_when_same_user_and_host_witness :
  {| Models.username := "guest"; Models.disabled := Some false |}
  = {| Models.username := "guest"; Models.disabled := Some false |} ∧
  "10.0.0.7" = "10.0.0.7".
Proof.
  apply (callers_share_a_key_only_when_same_user_and_host
           "guest" "guest" "10.0.0.7" "10.0.0.7"); reflexivity.
Defined.

(** C7, as the code has it.  Whenever the rate limiter refuses an
    allowed, authenticated request, [check_rate_limit] raises, and the
    endpoint lets through, the 429 exception whose message and whose
    Retry-After header both carry the configured period.  The
    application answers it through its registered handler, which builds
    the response from the status and the message only: the client gets
    the hint in the message and no Retry-After value. *)
Theorem refused_request_is_answered_with_the_hint_in_the_message_only
    (cfg : Settings) (out : Main.Outside) (clock : Main.Clock)
    (sector : string) (request : Main.Request) (credentials : string)
    (state : Main.State) (user : Models.User) (host : string) :
  Py.lower (Main.unicode out) sector ∈ allowed_sectors cfg →
  Auth.get_current_user (Main.jwt_decode out) cfg credentials = Return user →
  Main.client request = Some host →
  (RateLimit.is_rate_limited cfg (Models.username user +:+ "_" +:+ host)
     (Main.limiter_now clock) (Main.requests state)).1 = true →
  (RateLimit.check_rate_limit cfg (Models.username user +:+ "_" +:+ host)
     (Main.limiter_now clock) (Main.requests state)).1 =
    Raise (HTTP {|
      status_code := 429;
      detail := "Rate limit exceeded. Try again in "
                +:+ pretty (rate_limit_period cfg) +:+ " seconds.";
      headers := [("Retry-After", pretty (rate_limit_period cfg))] |}) ∧
  (Main.analyze_sector cfg out clock sector request credentials state).1 =
    Raise (HTTP {|
      status_code := 429;
      detail := "Rate limit exceeded. Try again in "
                +:+ pretty (rate_limit_period cfg) +:+ " seconds.";
      headers := [("Retry-After", pretty (rate_limit_period cfg))] |}) ∧
  Endpoints.answer_of
    (Main.analyze_sector cfg out clock sector request credentials state).1 =
    Some {| Endpoints.json_status := 429;
            Endpoints.json_content :=
              [("detail",
                PStr ("Rate limit exceeded. Try again in "
                      +:+ pretty (rate_limit_period cfg) +:+ " seconds."))];
            Endpoints.json_headers := None |}.
Proof.
  intros Hallowed Hauth Hclient Hverdict.
  rewrite (denied_check_raises_retry_after cfg _ _ _ Hverdict).
  by rewrite (analyze_sector_refused cfg out clock sector request credentials
                state user host).
Qed.

(** The scenario of the eleventh request, under the default settings:
    the user guest asks for the sector banking from one host once a
    second.  Ten requests are served; the eleventh, ten seconds after the
    first, raises the exception with Retry-After 60, and is answered with
    the status 429, the message, and no header. *)
Lemma refused_request_is_answered_with_the_hint_in_the_message_only_witness :
  Main.requests
    (Endpoints.served_state settings Examples.outside "banking" Examples.request
       "guest-token" Examples.ten_clocks Examples.fresh)
  = {[ "guest_127.0.0.1" :=
         [0; 1000000; 2000000; 3000000; 4000000; 5000000; 6000000; 7000000;
          8000000; 9000000] ]} ∧
  (Main.analyze_sector settings Examples.outside (Examples.clock_at 10) "banking"
     Examples.request "guest-token"
     (Endpoints.served_state settings Examples.outside "banking" Examples.request
        "guest-token" Examples.ten_clocks Examples.fresh)).1 =
    Raise (HTTP {|
      status_code := 429;
      detail := "Rate limit exceeded. Try again in 60 seconds.";
      headers := [("Retry-After", "60")] |}) ∧
  Endpoints.answer_of
    (Main.analyze_sector settings Examples.outside (Examples.clock_at 10) "banking"
       Examples.request "guest-token"
       (Endpoints.served_state settings Examples.outside "banking" Examples.request
          "guest-token" Examples.ten_clocks Examples.fresh)).1 =
    Some {| Endpoints.json_status := 429;
            Endpoints.json_content :=
              [("detail", PStr "Rate limit exceeded. Try again in 60 seconds.")];
            Endpoints.json_headers := None |}.
Proof.
  split; [vm_compute; reflexivity|].
  destruct (refused_request_is_answered_with_the_hint_in_the_message_only
              settings Examples.outside (Examples.clock_at 10) "banking"
              Examples.request "guest-token"
              (Endpoints.served_state settings Examples.outside "banking"
                 Examples.request "guest-token" Examples.ten_clocks
                 Examples.fresh)
              {| Models.username := "guest"; Models.disabled := Some false |}
              "127.0.0.1") as (Hraised & Hthrough & Hanswer).
  - apply (bool_decide_unpack _). vm_compute. exact I.
  - reflexivity.
  - reflexivity.
  - vm_compute. reflexivity.
  - split; [exact Hthrough|exact Hanswer].
Defined.

(** X17.  What the registered handler answers to a request the rate
    limiter refuses: the status 429 and the message with the period, and
    no header of the exception, so no Retry-After. *)
Theorem refusal_is_answered_without_the_retry_after_header
    (cfg : Settings) (out : Main.Outside) (clock : Main.Clock)
    (sector : string) (request : Main.Request) (credentials : string)
    (state : Main.State) (user : Models.User) (host : string) :
  Py.lower (Main.unicode out) sector ∈ allowed_sectors cfg →
  Auth.get_current_user (Main.jwt_decode out) cfg credentials = Return user →
  Main.client request = Some host →
  (RateLimit.is_rate_limited cfg (Models.username user +:+ "_" +:+ host)
     (Main.limiter_now clock) (Main.requests state)).1 = true →
  Endpoints.answer_of
    (Main.analyze_sector cfg out clock sector request credentials state).1 =
    Some {| Endpoints.json_status := 429;
            Endpoints.json_content :=
              [("detail",
                PStr ("Rate limit exceeded. Try again in "
                      +:+ pretty (rate_limit_period cfg) +:+ " seconds."))];
            Endpoints.json_headers := None |}.
Proof.
  intros Hallowed Hauth Hclient Hverdict.
  by rewrite (analyze_sector_refused cfg out clock sector request credentials
                state user host).
Qed.

Lemma refusal_is_answered_without_the_retry_after_header_witness :
  Endpoints.answer_of
    (Main.analyze_sector settings Examples.outside Examples.clock "banking"
       Examples.request "guest-token"
       {| Main.requests :=
            {[ "guest_127.0.0.1" := [0; 1; 2; 3; 4; 5; 6; 7; 8; 9] ]};
          Main.sessions := ∅ |}).1 =
    Some {| Endpoints.json_status := 429;
            Endpoints.json_content :=
              [("detail", PStr "Rate limit exceeded. Try again in 60 seconds.")];
            Endpoints.json_headers := None |}.
Proof.
  apply (refusal_is_answered_without_the_retry_after_header settings
           Examples.outside Examples.clock "banking" Examples.request
           "guest-token"
           {| Main.requests :=
                {[ "guest_127.0.0.1" := [0; 1; 2; 3; 4; 5; 6; 7; 8; 9] ]};
              Main.sessions := ∅ |}
           {| Models.username := "guest"; Models.disabled := Some false |}
           "127.0.0.1").
  - apply (bool_decide_unpack _). vm_compute. exact I.
  - reflexivity.
  - reflexivity.
  - reflexivity.
Defined.

(** ** Logging in *)

Section login_facts.
Import Py Models Issue.

Lemma authenticate_user_known name password user :
  authenticate_user name password = Some user ↔
  Claims.known_login name password ∧
  user = {| username := name; disabled := Some false |}.
Proof.
  unfold authenticate_user, Auth.fake_users_db, Claims.known_login. split.
  - destruct (decide (name = "guest")) as [->|Hg].
    { rewrite lookup_insert_eq. cbn. case_decide; [|done]. intros [= <-]. auto. }
    rewrite lookup_insert_ne by done.
    destruct (decide (name = "trader")) as [->|Ht].
    { rewrite lookup_singleton_eq. cbn. case_decide; [|done]. intros [= <-]. auto. }
    by rewrite lookup_singleton_ne.
  - intros [[[-> ->] | [-> ->]] ->]; [by rewrite lookup_insert_eq|].
    rewrite lookup_insert_ne by done. by rewrite lookup_singleton_eq.
Qed.

Lemma dict_update_lookup d key v : Claims.lookup (dict_update d key v) key = Some v.
Proof.
  induction d as [|[k old] d IH]; cbn.
  - by rewrite decide_True.
  - case_decide as Hk; cbn.
    + by rewrite decide_True.
    + by rewrite decide_False.
Qed.

Lemma dict_update_lookup_other d key v k :
  k ≠ key → Claims.lookup (dict_update d key v) k = Claims.lookup d k.
Proof.
  intros Hne. induction d as [|[k' old] d IH]; cbn.
  - by rewrite decide_False.
  - case_decide as Hk; cbn.
    + subst k'. by rewrite !decide_False by congruence.
    + case_decide; [done|]. by rewrite IH.
Qed.

Lemma dict_update_keys d key v :
  (dict_update d key v).*1 =
    match Claims.lookup d key with
    | Some _ => d.*1
    | None => d.*1 ++ [key]
    end.
Proof.
  induction d as [|[k old] d IH]; cbn; [done|].
  case_decide as Hk; cbn; [by subst|].
  rewrite IH. by destruct (Claims.lookup d key).
Qed.
End login_facts.

(** X18.  The claims handed to the encoder hold the expiry under the key
    exp: the reading of the clock plus the given delay, or plus fifteen
    minutes when no delay or a zero delay is given.  Every other claim of
    the data is handed over as it is, and the keys keep their order, with
    exp added at the end when the data had none. *)
Theorem access_token_carries_the_data_and_the_expiry
    (jwt_encode : list (string * Issue.claim) → string → string → result exn string)
    (cfg : Settings) (data : list (string * Issue.claim))
    (expires_delta : option Z) (utcnow : Z) :
  ∃ claims,
    Issue.create_access_token jwt_encode cfg data expires_delta utcnow
      = jwt_encode claims (secret_key cfg) (algorithm cfg) ∧
    Claims.lookup claims "exp" =
      Some (Issue.ClaimTime
              (utcnow + match expires_delta with
                        | Some delta => if decide (delta = 0) then 900000000
                                        else delta
                        | None => 900000000
                        end)) ∧
    (∀ key, key ≠ "exp" → Claims.lookup claims key = Claims.lookup data key) ∧
    claims.*1 = match Claims.lookup data "exp" with
                | Some _ => data.*1
                | None => data.*1 ++ ["exp"]
                end.
Proof.
  unfold Issue.create_access_token. cbn zeta. eexists. split; [reflexivity|].
  split_and!.
  - rewrite dict_update_lookup. do 2 f_equal.
    destruct expires_delta as [delta|]; [case_decide|]; done.
  - intros key Hkey. by apply dict_update_lookup_other.
  - apply dict_update_keys.
Qed.

(** X19.  Logging in with a pair that is not in the user table is
    answered 401 with the WWW-Authenticate header and leaves the sessions
    as they were.  With a pair of the table, the token is the encoding of
    the user name as subject with an expiry fifteen minutes after the
    reading of the clock, whatever the configured number of minutes; the
    user's session is replaced by a new one that holds the login time and
    the token and no record of analyses; an error of the encoder is
    raised as it is and leaves the sessions as they were. *)
Theorem login_outcomes
    (cfg : Settings)
    (jwt_encode : list (string * Issue.claim) → string → string → result exn string)
    (name password : string) (utcnow : Z) (login_time : string)
    (sessions : gmap string Main.Session) :
  (¬ Claims.known_login name password →
   Endpoints.login_for_access_token cfg jwt_encode name password utcnow
     login_time sessions =
     (Raise (HTTP {| status_code := 401;
                     detail := "Incorrect username or password";
                     headers := [("WWW-Authenticate", "Bearer")] |}),
      sessions)) ∧
  (Claims.known_login name password →
   Endpoints.login_for_access_token cfg jwt_encode name password utcnow
     login_time sessions =
     match jwt_encode [("sub", Issue.ClaimValue (PStr name));
                       ("exp", Issue.ClaimTime (utcnow + 900000000))]
             (secret_key cfg) (algorithm cfg) with
     | Return token =>
         (Return {| Endpoints.access_token := token;
                    Endpoints.token_type := "bearer" |},
          <[name := {| Main.last_login := login_time; Main.token := token;
                       Main.last_analysis := None;
                       Main.analysis_count := None |}]> sessions)
     | Raise e => (Raise e, sessions)
     end).
Proof.
  unfold Endpoints.login_for_access_token. split.
  - intros Hunknown.
    destruct (Issue.authenticate_user name password) as [user|] eqn:Hauth; [|done].
    apply authenticate_user_known in Hauth as [Hknown _]. done.
  - intros Hknown.
    rewrite (proj2 (authenticate_user_known name password _) (conj Hknown eq_refl)).
    unfold Issue.create_access_token. cbn.
    by destruct (jwt_encode _ _ _).
Qed.

(** X20.  The token a login returns is accepted as the same user: when
    the decoder gives back, for that token, a payload whose subject is
    the name that logged in, the user found for the token is the user
    the login authenticated. *)
Theorem issued_token_is_accepted_as_the_same_user
    (cfg : Settings)
    (jwt_encode : list (string * Issue.claim) → string → string → result exn string)
    (jwt_decode : string → string → list string → result exn pyval)
    (name password : string) (utcnow : Z) (login_time : string)
    (sessions sessions' : gmap string Main.Session)
    (issued : Endpoints.Token) (payload : pyval) :
  Endpoints.login_for_access_token cfg jwt_encode name password utcnow
    login_time sessions = (Return issued, sessions') →
  jwt_decode (Endpoints.access_token issued) (secret_key cfg) [algorithm cfg]
    = Return payload →
  Py.get payload "sub" PNone = Return (PStr name) →
  ∃ user,
    Issue.authenticate_user name password = Some user ∧
    Auth.get_current_user jwt_decode cfg (Endpoints.access_token issued)
      = Return user ∧
    sessions' !! Models.username user =
      Some {| Main.last_login := login_time;
              Main.token := Endpoints.access_token issued;
              Main.last_analysis := None; Main.analysis_count := None |}.
Proof.
  unfold Endpoints.login_for_access_token. intros Hlogin Hdecode Hsub.
  destruct (Issue.authenticate_user name password) as [user|] eqn:Hauth; [|done].
  exists user. split; [done|].
  apply authenticate_user_known in Hauth as [Hknown ->].
  destruct (Issue.create_access_token _ _ _ _ _) as [token|e]; [|done].
  injection Hlogin as <- <-. cbn in *. split; [|by rewrite lookup_insert_eq].
  unfold Auth.get_current_user. rewrite Hdecode, bind_Return, Hsub, bind_Return.
  cbn [Models.validate_optional_str]. rewrite bind_Return. cbn [mbind option_bind].
  assert (name = "guest" ∨ name = "trader") as Hname.
  { destruct Hknown as [[-> _] | [-> _]]; auto. }
  by rewrite (proj2 (get_user_known name _) (conj Hname eq_refl)).
Qed.

Lemma issued_token_is_accepted_as_the_same_user_witness :
  ∃ user,
    Issue.authenticate_user "guest" "guest" = Some user ∧
    Auth.get_current_user (Main.jwt_decode Examples.outside) settings "guest-token"
      = Return user.
Proof.
  destruct (issued_token_is_accepted_as_the_same_user settings
              (λ _ _ _, Return "guest-token") (Main.jwt_decode Examples.outside)
              "guest" "guest" 0 "2024-06-01T11:59:00" ∅
              (<[ "guest" := {| Main.last_login := "2024-06-01T11:59:00";
                                Main.token := "guest-token";
                                Main.last_analysis := None;
                                Main.analysis_count := None |} ]> ∅)
              {| Endpoints.access_token := "guest-token";
                 Endpoints.token_type := "bearer" |}
              (PDict [("sub", PStr "guest")]))
    as (user & Hauth & Htoken & _).
  - reflexivity.
  - reflexivity.
  - reflexivity.
  - exists user. split; [exact Hauth|exact Htoken].
Defined.

(** ** The markdown endpoint *)

(** X21.  Whenever the markdown endpoint returns, its body is the report
    of the response the analyze endpoint gives for the same request, with
    the same change of state; the report is headed by the title-cased
    lower-cased sector, while the file name of the download keeps the
    sector as it was written in the request. *)
Theorem markdown_download_is_the_report_of_the_analysis
    (cfg : Settings) (out : Main.Outside) (clock : Main.Clock)
    (file_date sector : string) (request : Main.Request) (credentials : string)
    (state state' : Main.State) (download : Endpoints.PlainTextResponse) :
  Endpoints.analyze_sector_markdown cfg out clock file_date sector request
    credentials state = (Return download, state') →
  ∃ response rest,
    Main.analyze_sector cfg out clock sector request credentials state
      = (Return response, state') ∧
    Endpoints.text_content download = Models.markdown_report response ∧
    Models.markdown_report response =
      ("# Market Analysis Report: "
       +:+ Py.title (Main.unicode out) (Py.lower (Main.unicode out) sector)
       +:+ " Sector"
       +:+ Analysis.nl) +:+ rest ∧
    Endpoints.text_headers download =
      Some [("Content-Disposition",
             "attachment; filename=" +:+ sector +:+ "_analysis_" +:+ file_date
             +:+ ".md")].
Proof.
  unfold Endpoints.analyze_sector_markdown. cbn zeta.
  destruct (Main.analyze_sector cfg out clock sector request credentials state)
    as [[response|e] served_state] eqn:Hserved; cbn [fst snd]; [|done].
  intros [= <- <-]. cbn.
  assert (∃ rest, Models.markdown_report response =
            ("# Market Analysis Report: "
             +:+ Py.title (Main.unicode out) (Py.lower (Main.unicode out) sector)
             +:+ " Sector" +:+ Analysis.nl) +:+ rest) as [rest Hrest].
  { unfold Main.analyze_sector in Hserved. cbn zeta in Hserved.
    case_bool_decide; [done|].
    destruct (Auth.get_current_user _ _ _) as [user|]; [|done].
    destruct (Main.client request) as [host|]; [|done].
    destruct (RateLimit.check_rate_limit _ _ _ _).1; [|done].
    destruct (Main.run_analysis _ _ _ _ _ _) as [[response' sessions']|] eqn:Hrun;
      [|done].
    injection Hserved as -> _.
    apply run_analysis_returned in Hrun as (_ & analysis & market_data & Hreport).
    apply report_layout in Hreport as (s & t & o & r & ->). by eexists. }
  by exists response, rest.
Qed.

Lemma markdown_download_is_the_report_of_the_analysis_witness :
  ∃ download state',
    Endpoints.analyze_sector_markdown settings Examples.outside Examples.clock
      "20240601" "Banking" Examples.request "guest-token" Examples.fresh
      = (Return download, state') ∧
    Endpoints.text_headers download =
      Some [("Content-Disposition",
             "attachment; filename=Banking_analysis_20240601.md")] ∧
    ∃ rest,
      Endpoints.text_content download =
        ("# Market Analysis Report: Banking Sector" +:+ Analysis.nl) +:+ rest.
Proof.
  eexists _, _. split; [vm_compute; reflexivity|].
  edestruct (markdown_download_is_the_report_of_the_analysis settings
               Examples.outside Examples.clock "20240601" "Banking"
               Examples.request "guest-token" Examples.fresh)
    as (response & rest & _ & Hbody & Hhead & Hname);
    [vm_compute; reflexivity|].
  split; [exact Hname|].
  exists rest. rewrite Hbody. exact Hhead.
Defined.

(** ** The keys of the rate limiter *)

Section key_facts.
Import RateLimit.
Context (cfg : Settings).

Lemma is_rate_limited_dom key now requests :
  dom (is_rate_limited cfg key now requests).2 = {[key]} ∪ dom requests.
Proof.
  unfold is_rate_limited. cbn zeta. case_bool_decide; cbn; apply dom_insert_L.
Qed.
End key_facts.

(** X22.  No check removes a key: after a run of checks the keys of the
    state are the keys it had and the keys that were checked, admitted or
    refused. *)
Theorem checked_keys_are_kept
    (cfg : Settings) (calls : list (string * Z)) (requests : gmap string (list Z)) :
  dom (RateLimit.checks cfg calls requests).2
  = dom requests ∪ list_to_set calls.*1.
Proof.
  revert requests. induction calls as [|[key now] calls IH]; intros requests.
  - cbn. by rewrite (right_id_L ∅ (∪)).
  - cbn [RateLimit.checks snd fmap list_fmap list_to_set fst].
    rewrite IH, is_rate_limited_dom.
    rewrite (comm_L (∪) {[key]} (dom requests)). by rewrite (assoc_L (∪)).
Qed.
